(** * The pandas check backend of pandera: preprocess, apply, postprocess

    A shallow embedding of [pandera/backends/pandas/checks.py] and of the
    part of the pandas API that file calls, followed by the properties of
    the check-execution pipeline. *)

From Stdlib Require Import ZArith Lia.
From stdpp Require Import base option list strings gmap.

Local Open Scope string_scope.
Local Open Scope list_scope.

(** ** Python values, exceptions and outcomes *)
Module Py.

(** The scalars held by the containers: integers, strings, and the
    missing value (NaN, None). *)
Inductive value :=
| VInt (z : Z)
| VStr (s : string)
| VNa.

#[global] Instance value_eq_dec : EqDecision value.
Proof. solve_decision. Defined.

Definition value_enc (v : value) : Z + (string + unit) :=
  match v with
  | VInt z => inl z
  | VStr s => inr (inl s)
  | VNa => inr (inr tt)
  end.

Definition value_dec (x : Z + (string + unit)) : value :=
  match x with
  | inl z => VInt z
  | inr (inl s) => VStr s
  | inr (inr _) => VNa
  end.

#[global] Instance value_countable : Countable value.
Proof.
  refine (inj_countable' value_enc value_dec _).
  intros []; reflexivity.
Defined.

(** The pieces of an f-string: literal text and the [repr] of the
    interpolated objects. A set has no fixed printing order, so a message
    keeps the interpolated objects themselves. *)
Inductive fragment :=
| Text (s : string)
| ReprList (l : list value)
| ReprSet (s : gset value)
| ReprType (ty : string).

(** The exceptions raised by the backend and by the pandas calls it
    makes. [DispatchError fn] is multimethod's error for a call of [fn]
    that no registered signature accepts; [DispatchErrorFrom fn cause] is
    the DispatchError that multimethod raises from a TypeError [cause]
    that left the body of a signature of [fn] (its own message names the
    code object of the signature, [cause] is kept as [__cause__]).
    [UserError] stands for an exception of a predicate or of a grouping
    function whose class is no TypeError. *)
Inductive exn :=
| AttributeError (cls attr : string)
| KeyError (msg : list fragment)
| TypeError (msg : list fragment)
| AssertionError
| DispatchError (fn : string)
| DispatchErrorFrom (fn : string) (cause : exn)
| IndexingError
| ValueError (msg : string)
| UserError (tag : string).

(** [isinstance(e, TypeError)]: multimethod's DispatchError is a subclass
    of TypeError. *)
Definition is_type_error (e : exn) : bool :=
  match e with
  | TypeError _ | DispatchError _ | DispatchErrorFrom _ _ => true
  | _ => false
  end.

(** [Unmodelled] marks pandas behaviour this development does not
    describe (label alignment of differently indexed operands, object
    dtype results); it is neither a result nor a Python exception. *)
Inductive outcome (A : Type) :=
| Ok (a : A)
| Raise (e : exn)
| Unmodelled.
Arguments Ok {A} a.
Arguments Raise {A} e.
Arguments Unmodelled {A}.

Definition obind {A B} (m : outcome A) (k : A -> outcome B) : outcome B :=
  match m with
  | Ok a => k a
  | Raise e => Raise e
  | Unmodelled => Unmodelled
  end.

Definition is_ok {A} (m : outcome A) : bool :=
  match m with Ok _ => true | _ => false end.

(** What the caller of a multimethod [fn] sees of an exception that left
    the body of a signature: [except TypeError as ex: raise
    DispatchError(...) from ex]. *)
Definition reraise (fn : string) (e : exn) : exn :=
  if is_type_error e then DispatchErrorFrom fn e else e.

Definition reraise_outcome {A} (fn : string) (o : outcome A) : outcome A :=
  match o with
  | Raise e => Raise (reraise fn e)
  | _ => o
  end.

End Py.
Export Py.

(** ** The pandas containers and the operations the backend calls *)
Module Pandas.

(** A row label: an entry of a flat index, or an entry (column, row) of
    the two-level index that [DataFrame.unstack] builds. *)
Inductive label :=
| Single (v : value)
| Pair (column : string) (index : value).

#[global] Instance label_eq_dec : EqDecision label.
Proof. solve_decision. Defined.

(** A Series: its rows in order, each a label and a value. *)
Abbreviation series A := (list (label * A)).

(** A DataFrame with a flat row index: the column names and the rows in
    order, each a label and one value per column. *)
Record frame (A : Type) := DataFrame {
  columns : list string;
  rows : list (value * list A)
}.
Arguments DataFrame {A} columns rows.
Arguments columns {A} f.
Arguments rows {A} f.

(** A frame is rectangular: every row has one cell per column. *)
Definition wf_frame {A} (f : frame A) : Prop :=
  Forall (fun r => length r.2 = length (columns f)) (rows f).

(** [Series.index], [Series.values] and [DataFrame.index] *)
Definition s_index {A} (s : series A) : list label := s.*1.
Definition s_values {A} (s : series A) : list A := s.*2.
Definition f_index {A} (f : frame A) : list label := Single <$> (rows f).*1.

(** [DataFrame.shape] *)
Definition shape {A} (f : frame A) : nat * nat :=
  (length (rows f), length (columns f)).

(** [Series.empty] *)
Definition s_empty {A} (s : series A) : bool :=
  match s with [] => true | _ => false end.

(** [DataFrame.empty]: some axis has length zero. *)
Definition f_empty {A} (f : frame A) : bool :=
  match rows f, columns f with
  | _ :: _, _ :: _ => false
  | _, _ => true
  end.

(** [pd.isna] on a scalar *)
Definition isna (v : value) : bool :=
  match v with VNa => true | _ => false end.

(** [Series.isna] *)
Definition s_isna (s : series value) : series bool :=
  prod_map id isna <$> s.

(** [DataFrame.isna().any(axis="columns")] *)
Definition f_isna_any (f : frame value) : series bool :=
  (fun r => (Single r.1, existsb isna r.2)) <$> rows f.

(** [~s] on a boolean Series *)
Definition s_not (s : series bool) : series bool :=
  prod_map id negb <$> s.

(** [a | b] on boolean Series that carry the same index. *)
Definition s_or (a b : series bool) : outcome (series bool) :=
  if decide (s_index a = s_index b)
  then Ok (zip_with (fun x y => (x.1, x.2 || y.2)) a b)
  else Unmodelled.

(** [Series.all()], also [all(axis=None)] *)
Definition s_all (s : series bool) : bool := forallb id (s_values s).

(** Keep the items whose mask entry is true. *)
Fixpoint select {X} (items : list X) (mask : list bool) : list X :=
  match items, mask with
  | x :: items', b :: mask' =>
      if b then x :: select items' mask' else select items' mask'
  | _, _ => []
  end.

(** The value under the first label equal to [l]. *)
Fixpoint assoc {A} (l : label) (s : series A) : option A :=
  match s with
  | [] => None
  | (l', a) :: s' => if decide (l' = l) then Some a else assoc l s'
  end.

(** pandas' [check_bool_indexer]: a boolean Series used as a key is
    taken as it is when it carries the index of the indexed object, and
    is otherwise looked up label by label. *)
Definition check_bool_indexer (index : list label) (key : series bool)
  : outcome (list bool) :=
  if decide (s_index key = index) then Ok (s_values key)
  else if decide (NoDup (s_index key)) then
    match mapM (fun l => assoc l key) index with
    | Some mask => Ok mask
    | None => Raise IndexingError
    end
  else Unmodelled.

(** [s[key]] for a boolean Series [key] *)
Definition s_getitem_mask {A} (s : series A) (key : series bool)
  : outcome (series A) :=
  obind (check_bool_indexer (s_index s) key) (fun mask => Ok (select s mask)).

(** [df[key]] for a boolean Series [key]: the rows under the mask. *)
Definition f_getitem_mask {A} (f : frame A) (key : series bool)
  : outcome (frame A) :=
  obind (check_bool_indexer (f_index f) key)
    (fun mask => Ok (DataFrame (columns f) (select (rows f) mask))).

(** The stop of the Python slice [[:n]] on a sequence of [len] items. *)
Definition slice_stop (n : Z) (len : nat) : nat :=
  Z.to_nat (if (0 <=? n)%Z then n else (Z.of_nat len + n)%Z).

(** [head(n)] of a Series or DataFrame: [iloc[:n]] *)
Definition head {X} (n : Z) (items : list X) : list X :=
  take (slice_stop n (length items)) items.

(** pandas' [_convert_grouper]: the grouping Series is used as it is when
    it carries the index of the grouped object and is reindexed to it
    otherwise, which pandas refuses for a Series with repeated labels. *)
Definition convert_grouper (axis : list label) (by_ : series bool)
  : outcome (list (option bool)) :=
  if decide (s_index by_ = axis) then Ok (Some <$> s_values by_)
  else if decide (NoDup (s_index by_)) then
    Ok ((fun l => assoc l by_) <$> axis)
  else Raise (ValueError "cannot reindex on an axis with duplicate labels").

(** The number of keys equal to [k]. *)
Definition count_key (k : bool) (keys : list bool) : nat :=
  length (filter (fun k' => k' = k) keys).

(** [GroupBy.head(n)]: the rows, in their original order, whose position
    within their group lies in the slice [[:n]] of the group (a negative
    [n] leaves out the last rows of each group). A row whose key is
    missing belongs to no group. [seen] holds the keys of the rows
    already passed, [sizes] the keys of all rows. *)
Fixpoint group_head {X} (n : Z) (sizes seen : list bool)
    (items : list X) (keys : list (option bool)) : list X :=
  match items, keys with
  | x :: items', Some k :: keys' =>
      if decide (count_key k seen < slice_stop n (count_key k sizes))
      then x :: group_head n sizes (k :: seen) items' keys'
      else group_head n sizes (k :: seen) items' keys'
  | _ :: items', None :: keys' => group_head n sizes seen items' keys'
  | _, _ => []
  end.

(** [obj.groupby(by_).head(n)] on the rows [items] labelled [axis]. *)
Definition groupby_head {X} (axis : list label) (items : list X)
    (by_ : series bool) (n : Z) : outcome (list X) :=
  obind (convert_grouper axis by_)
    (fun keys => Ok (group_head n (omap id keys) [] items keys)).

(** The entries of column [c], at position [j], of the rows [rs]. *)
Definition column_entries {A} (rs : list (value * list A)) (j : nat)
    (c : string) : series A :=
  omap (fun r : value * list A => (fun x => (Pair c r.1, x)) <$> r.2 !! j) rs.

(** [DataFrame.unstack()] on a frame with a flat index: one entry per
    cell, column after column, rows in order within a column, labelled
    by (column, row). *)
Definition unstack {A} (f : frame A) : series A :=
  concat (imap (column_entries (rows f)) (columns f)).

(** A row of the long-form failure table. *)
Record long_row := LongRow {
  column : string;
  index : value;
  failure_case : value
}.

#[global] Instance long_row_eq_dec : EqDecision long_row.
Proof. solve_decision. Defined.

(** The row of the long-form table for an entry of an unstacked Series. *)
Definition long_of (r : label * value) : option long_row :=
  match r.1 with
  | Pair c i => Some (LongRow c i r.2)
  | Single _ => None
  end.

(** [.rename("failure_case").rename_axis(["column", "index"]).reset_index()]:
    the two index levels become columns; naming two levels fails on a
    flat index. *)
Definition reset_index (s : series value) : outcome (list long_row) :=
  match mapM long_of s with
  | Some l => Ok l
  | None => Raise (ValueError "Length of names must match number of levels")
  end.

(** [DataFrame.drop_duplicates()]: the first occurrence of every row. *)
Fixpoint drop_duplicates_from {X} `{EqDecision X} (seen : list X)
    (l : list X) : list X :=
  match l with
  | [] => []
  | x :: l' =>
      if decide (x ∈ seen) then drop_duplicates_from seen l'
      else x :: drop_duplicates_from (x :: seen) l'
  end.

Definition drop_duplicates {X} `{EqDecision X} (l : list X) : list X :=
  drop_duplicates_from [] l.

(** The positions of the columns called [key]. *)
Definition positions (key : string) (cols : list string) : list nat :=
  omap (fun jc : nat * string =>
          if decide (jc.2 = key) then Some jc.1 else None)
       (imap pair cols).

(** The cells of a row at the given positions. *)
Definition project {A} (js : list nat) (r : list A) : list A :=
  omap (fun j => r !! j) js.

End Pandas.
Export Pandas.

(** ** The check configuration and the check result *)
Module Checks.

(** The check object handed to the backend: a column or a table. *)
Inductive container :=
| Column (s : series value)
| Table (f : frame value).

(** A pandas groupby object, as the backend uses it: iterating it yields
    the pairs of a group key and the group. *)
Abbreviation groupby_object := (list (value * container)).

(** The object after preprocessing: the container, or the mapping from
    group key to group. *)
Inductive check_object :=
| Plain (c : container)
| Grouped (d : gmap value container).

(** What a predicate is called with: a scalar of a column, a row of a
    table (its column names, its label, its cells), a container, or the
    row without cells that pandas probes a function with when it is
    applied along a table that has an empty axis. *)
Inductive pyarg :=
| ArgScalar (v : value)
| ArgRow (cols : list string) (name : value) (cells : list value)
| ArgObj (c : container)
| ArgProbe (cols : list string).

(** What a predicate returns: a Python [bool]; a [numpy.bool_], the
    boolean scalar that comparisons and reductions of pandas return, which
    is no subclass of [bool]; a boolean Series; a boolean DataFrame; or an
    object of any other type, of which only the type matters. *)
Inductive output :=
| OutBool (b : bool)
| OutNumpyBool (b : bool)
| OutSeries (s : series bool)
| OutFrame (f : frame bool)
| OutOther (ty : string).

(** [check.groupby]: a column name or a grouping function. *)
Inductive grouping :=
| ByColumn (name : string)
| ByFunction (f : container -> outcome groupby_object).

(** Modelled from the spec: the class [BaseCheck] of
    [pandera.core.base.checks], of which the backend reads the attributes
    below; [groups] is the allow-list of group keys of the data model. *)
Record BaseCheck := {
  _check_fn : pyarg -> list (string * value) -> outcome output;
  _check_kwargs : list (string * value);
  element_wise : bool;
  groupby : option grouping;
  groups : option (list value);
  ignore_na : bool;
  n_failure_cases : option Z
}.

(** The failure cases of a result: the failing values of a column, the
    failing rows of a table, or the long-form table of the failing
    cells. *)
Inductive failures :=
| FcSeries (s : series value)
| FcFrame (f : frame value)
| FcLong (l : list long_row).

(** Modelled from the spec: the record [CheckResult] of
    [pandera.core.base.checks], with the four fields the backend fills. *)
Record CheckResult := {
  check_output : output;
  check_passed : bool;
  checked_object : check_object;
  failure_cases : option failures
}.

(** [repr(type(check_output))] *)
Definition type_of (o : output) : string :=
  match o with
  | OutBool _ => "<class 'bool'>"
  | OutNumpyBool _ => "<class 'numpy.bool_'>"
  | OutSeries _ => "<class 'pandas.core.series.Series'>"
  | OutFrame _ => "<class 'pandas.core.frame.DataFrame'>"
  | OutOther ty => ty
  end.

(** [type(obj).__module__] *)
Definition module_of (c : container) : string :=
  match c with
  | Column _ => "pandas.core.series"
  | Table _ => "pandas.core.frame"
  end.

(** [df[key]] for a column name: the column as a Series, the sub-frame of
    all the columns of that name when there are several, a [KeyError]
    when there is none. *)
Definition f_getitem (f : frame value) (key : string) : outcome container :=
  match positions key (columns f) with
  | [] => Raise (KeyError [ReprList [VStr key]])
  | [j] =>
      match mapM (fun r : value * list value =>
                    (fun x => (Single r.1, x)) <$> r.2 !! j) (rows f) with
      | Some s => Ok (Column s)
      | None => Unmodelled
      end
  | js =>
      Ok (Table (DataFrame (project js (columns f))
                           (prod_map id (project js) <$> rows f)))
  end.

End Checks.
Export Checks.

(** ** Computations of the backend: outcomes with a log of the calls made *)
Module Run.

(** The calls the properties speak about: the predicate, the grouping
    function of the check, and [_format_groupby_input]. *)
Inductive event :=
| EvCheckFn (a : pyarg)
| EvGroupbyFn (c : container)
| EvFormatGroupbyInput.

(** A computation takes the log so far and gives its outcome and the
    extended log; an exception ends it and keeps the log. *)
Definition M (A : Type) : Type := list event -> outcome A * list event.

#[global] Instance M_ret : MRet M := fun A a log => (Ok a, log).

#[global] Instance M_bind : MBind M := fun A B k m log =>
  match m log with
  | (Ok a, log') => k a log'
  | (Raise e, log') => (Raise e, log')
  | (Unmodelled, log') => (Unmodelled, log')
  end.

Definition raise {A} (e : exn) : M A := fun log => (Raise e, log).
Definition lift {A} (o : outcome A) : M A := fun log => (o, log).
Definition tell (e : event) : M unit := fun log => (Ok tt, log ++ [e]).

(** A call of a signature of the multimethod [fn]: a TypeError that
    leaves the body is raised again as a DispatchError. *)
Definition multimethod {A} (fn : string) (body : M A) : M A :=
  fun log => (reraise_outcome fn (body log).1, (body log).2).

Definition is_check_fn (e : event) : bool :=
  match e with EvCheckFn _ => true | _ => false end.

Definition is_format (e : event) : bool :=
  match e with EvFormatGroupbyInput => true | _ => false end.

(** The number of predicate calls in a log. *)
Definition predicate_calls (log : list event) : nat :=
  length (List.filter is_check_fn log).

(** The number of times [_format_groupby_input] was entered. *)
Definition format_calls (log : list event) : nat :=
  length (List.filter is_format log).

End Run.
Export Run.

(** ** [class PandasCheckBackend(BaseCheckBackend)] *)
Module PandasCheckBackend.

(** What an attribute of a backend instance can hold. *)
Inductive attr :=
| AttrCheck (c : BaseCheck)
| AttrFn (f : pyarg -> outcome output)
| AttrGroups (g : option (list value))
| AttrMethod (name : string).

Definition class_name : string := "PandasCheckBackend".

(** The names defined in the bodies of the class and of
    [BaseCheckBackend]. *)
Definition class_attrs : list string :=
  [ "__init__"; "groupby"; "query"; "aggregate"; "_format_groupby_input";
    "preprocess"; "apply"; "postprocess"; "_get_series_failure_cases";
    "__call__"; "statistics"; "strategy" ].

(** [functools.partial(fn, **kwargs)] *)
Definition partial (fn : pyarg -> list (string * value) -> outcome output)
    (kwargs : list (string * value)) : pyarg -> outcome output :=
  fun a => fn a kwargs.

(** [__init__]: the instance dictionary after construction. *)
Definition __init__ (check : BaseCheck) : gmap string attr :=
  <["check_fn" := AttrFn (partial (_check_fn check) (_check_kwargs check))]>
    (<["check" := AttrCheck check]> ∅).

(** [self.name]: the instance dictionary first, then the classes. Beyond
    the names of [class_attrs], [object], [ABC] and the interpreter define
    names of their own ([__class__], [__dict__], [_abc_impl], ...), all
    of which begin with an underscore: such a name is left undescribed.
    Any other name is defined nowhere. *)
Definition getattr (self : gmap string attr) (name : string) : M attr :=
  match self !! name with
  | Some a => mret a
  | None =>
      if decide (name ∈ class_attrs) then mret (AttrMethod name)
      else if String.prefix "_" name then lift Unmodelled
      else raise (AttributeError class_name name)
  end.

(** [self.check], [self.check_fn] and [self.groups], read as the kind of
    object the code goes on to use them as. *)
Definition self_check (self : gmap string attr) : M BaseCheck :=
  a ← getattr self "check";
  match a with AttrCheck c => mret c | _ => lift Unmodelled end.

Definition self_check_fn (self : gmap string attr)
  : M (pyarg -> outcome output) :=
  a ← getattr self "check_fn";
  match a with AttrFn f => mret f | _ => lift Unmodelled end.

Definition self_groups (self : gmap string attr) : M (option (list value)) :=
  a ← getattr self "groups";
  match a with AttrGroups g => mret g | _ => lift Unmodelled end.

(** A call of the predicate. *)
Definition call (fn : pyarg -> outcome output) (a : pyarg) : M output :=
  tell (EvCheckFn a);; lift (fn a).

Section Grouping.

(** [obj.groupby(name)] of pandas, for a column or a table. *)
Variable pd_groupby : container -> string -> outcome groupby_object.

(** [groupby] *)
Definition groupby (self : gmap string attr) (check_obj : container)
  : M groupby_object :=
  c ← self_check self;
  match Checks.groupby c with
  | Some (ByColumn name) => lift (pd_groupby check_obj name)
  | Some (ByFunction f) => tell (EvGroupbyFn check_obj);; lift (f check_obj)
  | None => raise (TypeError [Text "'NoneType' object is not callable"])
  end.

(** [dict(pairs)]: a later pair replaces an earlier one of the same key. *)
Definition dict (pairs : groupby_object) : gmap value container :=
  foldl (fun d kv => <[kv.1 := kv.2]> d) ∅ pairs.

(** [_format_groupby_input] *)
Definition _format_groupby_input (groupby_obj : groupby_object)
    (groups : option (list value)) : outcome (gmap value container) :=
  match groups with
  | None => Ok (dict groupby_obj)
  | Some groups =>
      let group_keys : gset value := list_to_set groupby_obj.*1 in
      let invalid_groups := filter (fun g => g ∉ group_keys) groups in
      match invalid_groups with
      | _ :: _ =>
          Raise (KeyError
            [ Text "groups "; ReprList invalid_groups;
              Text " provided in `groups` argument not a valid group key. Valid group keys: ";
              ReprSet group_keys ])
      | [] => Ok (dict (filter (fun kg => kg.1 ∈ groups) groupby_obj))
      end
  end.

(** What both table signatures of [preprocess] do once [groupby] is
    set. *)
Definition preprocess_grouped_input (self : gmap string attr)
    (check_obj : container) : M check_object :=
  g ← groupby self check_obj;
  groups ← self_groups self;
  tell EvFormatGroupbyInput;;
  d ← lift (_format_groupby_input g groups);
  mret (Grouped d).

(** [preprocess(self, check_obj: pd.Series, key: None)] *)
Definition preprocess_series (check_obj : series value) : M check_object :=
  mret (Plain (Column check_obj)).

(** [preprocess(self, check_obj: pd.DataFrame, key: str)] *)
Definition preprocess_frame_key (self : gmap string attr)
    (check_obj : frame value) (key : string) : M check_object :=
  check_obj ← lift (f_getitem check_obj key);
  c ← self_check self;
  match Checks.groupby c with
  | None => mret (Plain check_obj)
  | Some _ => preprocess_grouped_input self check_obj
  end.

(** [preprocess(self, check_obj: pd.DataFrame, key: None)] *)
Definition preprocess_frame (self : gmap string attr)
    (check_obj : frame value) : M check_object :=
  c ← self_check self;
  match Checks.groupby c with
  | None => mret (Plain (Table check_obj))
  | Some _ => preprocess_grouped_input self (Table check_obj)
  end.

(** [preprocess], the three registered signatures; any other pair of
    argument types has no match. *)
Definition preprocess (self : gmap string attr) (check_obj : container)
    (key : option string) : M check_object :=
  match check_obj, key with
  | Column s, None => multimethod "preprocess" (preprocess_series s)
  | Table f, Some key => multimethod "preprocess" (preprocess_frame_key self f key)
  | Table f, None => multimethod "preprocess" (preprocess_frame self f)
  | Column _, Some _ => raise (DispatchError "preprocess")
  end.

End Grouping.

(** [Series.map(fn)] and [DataFrame.apply(fn, axis=1)]: the predicate is
    called on the arguments in order, the first exception ends the
    traversal, and the results keep the labels. *)
Fixpoint map_fn (fn : pyarg -> outcome output) (args : list (label * pyarg))
  : M (list (label * output)) :=
  match args with
  | [] => mret []
  | (l, a) :: args' =>
      o ← call fn a;
      r ← map_fn fn args';
      mret ((l, o) :: r)
  end.

(** The Series of the results, when every one of them is a boolean
    scalar. *)
Definition bool_series (r : list (label * output)) : M output :=
  match mapM (fun x : label * output =>
                match x.2 with
                | OutBool b | OutNumpyBool b => Some (x.1, b)
                | _ => None
                end) r
  with
  | Some bs => mret (OutSeries bs)
  | None => lift Unmodelled
  end.

(** [apply(self, check_obj: pd.Series)] *)
Definition apply_series (self : gmap string attr) (check_obj : series value)
  : M output :=
  c ← self_check self;
  fn ← self_check_fn self;
  if element_wise c then
    r ← map_fn fn (prod_map id ArgScalar <$> check_obj);
    bool_series r
  else call fn (ArgObj (Column check_obj)).

(** [apply(self, check_obj: pd.DataFrame)]. On a frame with an empty
    axis pandas does not map the function over the rows: it probes it
    with a row that has no cells, and what follows the probe is left
    undescribed. *)
Definition apply_frame (self : gmap string attr) (check_obj : frame value)
  : M output :=
  c ← self_check self;
  fn ← self_check_fn self;
  if element_wise c then
    if f_empty check_obj then
      tell (EvCheckFn (ArgProbe (columns check_obj)));; lift Unmodelled
    else
      r ← map_fn fn ((fun r : value * list value =>
                        (Single r.1, ArgRow (columns check_obj) r.1 r.2))
                     <$> rows check_obj);
      bool_series r
  else call fn (ArgObj (Table check_obj)).

(** [apply], the two registered signatures. *)
Definition apply (self : gmap string attr) (check_obj : check_object)
  : M output :=
  match check_obj with
  | Plain (Column s) => multimethod "apply" (apply_series self s)
  | Plain (Table f) => multimethod "apply" (apply_frame self f)
  | Grouped _ => raise (DispatchError "apply")
  end.

(** [module.startswith(("pyspark.pandas", "modin.pandas"))] *)
Definition foreign_engine (m : string) : bool :=
  String.prefix "pyspark.pandas" m || String.prefix "modin.pandas" m.

(** The alignment [DataFrame.assign] makes of a Series to the frame. *)
Definition reindex_for_setitem (axis : list label) (col : series bool)
  : outcome (list (option bool)) :=
  if decide (s_index col = axis) then Ok (Some <$> s_values col)
  else if decide (NoDup (s_index col)) then
    Ok ((fun l => assoc l col) <$> axis)
  else Raise (TypeError
                [Text "incompatible index of inserted column with frame index"]).

(** [.rename("failure_cases").to_frame().assign(check_output=check_output)
     .groupby("check_output").head(n)["failure_cases"]] *)
Definition head_by_assigned_column (failure_cases : series value)
    (check_output : series bool) (n : Z) : outcome (series value) :=
  obind (reindex_for_setitem (s_index failure_cases) check_output)
    (fun keys =>
       Ok (group_head n (omap id keys) [] failure_cases keys)).

(** [_get_series_failure_cases], for a column and for a table. *)
Definition _get_series_failure_cases (self : gmap string attr)
    (check_obj : container) (check_output : series bool) : M failures :=
  match check_obj with
  | Column s =>
      failure_cases ← lift (s_getitem_mask s (s_not check_output));
      n ← (if s_empty failure_cases then mret None
           else c ← self_check self; mret (n_failure_cases c));
      match n with
      | Some n =>
          if foreign_engine (module_of (Column failure_cases)) then
            fc ← lift (head_by_assigned_column failure_cases check_output n);
            mret (FcSeries fc)
          else
            fc ← lift (groupby_head (s_index failure_cases) failure_cases
                                    check_output n);
            mret (FcSeries fc)
      | None => mret (FcSeries failure_cases)
      end
  | Table f =>
      failure_cases ← lift (f_getitem_mask f (s_not check_output));
      n ← (if f_empty failure_cases then mret None
           else c ← self_check self; mret (n_failure_cases c));
      match n with
      | Some n =>
          if foreign_engine (module_of (Table failure_cases)) then
            lift Unmodelled
          else
            fc ← lift (groupby_head (f_index failure_cases)
                                    (rows failure_cases) check_output n);
            mret (FcFrame (DataFrame (columns failure_cases) fc))
      | None => mret (FcFrame failure_cases)
      end
  end.

(** [postprocess(check_obj: Any, check_output: bool)] *)
Definition postprocess_scalar (check_obj : check_object) (check_output : bool)
  : M CheckResult :=
  mret {| check_output := OutBool check_output;
          check_passed := check_output;
          checked_object := check_obj;
          failure_cases := None |}.

(** [postprocess(check_obj: pd.Series, check_output: pd.Series)] *)
Definition postprocess_column (self : gmap string attr)
    (check_obj : series value) (check_output : series bool) : M CheckResult :=
  c ← self_check self;
  check_output ← (if ignore_na c
                  then lift (s_or check_output (s_isna check_obj))
                  else mret check_output);
  fc ← _get_series_failure_cases self (Column check_obj) check_output;
  mret {| check_output := OutSeries check_output;
          check_passed := s_all check_output;
          checked_object := Plain (Column check_obj);
          failure_cases := Some fc |}.

(** [postprocess(check_obj: pd.DataFrame, check_output: pd.Series)] *)
Definition postprocess_table_rows (self : gmap string attr)
    (check_obj : frame value) (check_output : series bool) : M CheckResult :=
  c ← self_check self;
  check_output ← (if ignore_na c
                  then lift (s_or check_output (f_isna_any check_obj))
                  else mret check_output);
  fc ← _get_series_failure_cases self (Table check_obj) check_output;
  mret {| check_output := OutSeries check_output;
          check_passed := s_all check_output;
          checked_object := Plain (Table check_obj);
          failure_cases := Some fc |}.

(** [postprocess(check_obj: pd.DataFrame, check_output: pd.DataFrame)] *)
Definition postprocess_table_cells (self : gmap string attr)
    (check_obj : frame value) (check_output : frame bool) : M CheckResult :=
  if decide (shape check_obj = shape check_output) then
    let check_obj := unstack check_obj in
    let check_output := unstack check_output in
    c ← self_check self;
    check_output ← (if ignore_na c
                    then lift (s_or check_output (s_isna check_obj))
                    else mret check_output);
    selected ← lift (s_getitem_mask check_obj (s_not check_output));
    failure_cases ← lift (reset_index selected);
    n ← (match failure_cases with
         | [] => mret None
         | _ :: _ => c ← self_check self; mret (n_failure_cases c)
         end);
    let failure_cases :=
      match n with
      | Some n => head n (drop_duplicates failure_cases)
      | None => failure_cases
      end in
    mret {| check_output := OutSeries check_output;
            check_passed := s_all check_output;
            checked_object := Plain (Column check_obj);
            failure_cases := Some (FcLong failure_cases) |}
  else raise AssertionError.

(** [postprocess(check_obj: Any, check_output: Any)] *)
Definition postprocess_any (check_output : output) : M CheckResult :=
  raise (TypeError [ Text "output type of check_fn not recognized: ";
                     ReprType (type_of check_output) ]).

(** [postprocess]: the most specific registered signature is chosen
    from the types of the two arguments. *)
Definition postprocess (self : gmap string attr) (check_obj : check_object)
    (check_output : output) : M CheckResult :=
  match check_output, check_obj with
  | OutBool b, _ => multimethod "postprocess" (postprocess_scalar check_obj b)
  | OutSeries o, Plain (Column s) =>
      multimethod "postprocess" (postprocess_column self s o)
  | OutSeries o, Plain (Table f) =>
      multimethod "postprocess" (postprocess_table_rows self f o)
  | OutFrame o, Plain (Table f) =>
      multimethod "postprocess" (postprocess_table_cells self f o)
  | _, _ => multimethod "postprocess" (postprocess_any check_output)
  end.

Section Pipeline.

Variable pd_groupby : container -> string -> outcome groupby_object.

(** [__call__] *)
Definition __call__ (self : gmap string attr) (check_obj : container)
    (key : option string) : M CheckResult :=
  check_obj ← preprocess pd_groupby self check_obj key;
  check_output ← apply self check_obj;
  postprocess self check_obj check_output.

End Pipeline.

End PandasCheckBackend.
Export PandasCheckBackend.

(** ** Vocabulary of the properties *)
Module Vocabulary.

(** The object the grouping is computed on: the projected column when a
    key is given, the table itself otherwise. *)
Definition projected (f : frame value) (key : option string)
  : outcome container :=
  match key with
  | Some k => f_getitem f k
  | None => Ok (Table f)
  end.

(** The boolean entries of a check output. *)
Definition entries (o : output) : list bool :=
  match o with
  | OutBool b => [b]
  | OutNumpyBool b => [b]
  | OutSeries s => s_values s
  | OutFrame f => concat (rows f).*2
  | OutOther _ => []
  end.

(** The items at the positions where the output is false, in order. *)
Definition at_false {X} (items : list X) (o : list bool) : list X :=
  omap (fun xb : X * bool => if xb.2 then None else Some xb.1) (zip items o).

(** The first [k] items when a bound [k] is set. *)
Definition bounded {X} (n : option Z) (l : list X) : list X :=
  match n with
  | Some k => take (Z.to_nat k) l
  | None => l
  end.

(** The output after the [ignore_na] adjustment: under [ignore], a row
    passes as well when the mask [na] of missing values marks it. *)
Definition with_na (ignore : bool) (o na : series bool) : series bool :=
  if ignore then zip_with (fun x y => (x.1, x.2 || y.2)) o na else o.

(** What the bounded case needs: a bound that is a count, and labels
    that tell the rows apart. *)
Definition bound_ok (n : option Z) (labels : list label) : Prop :=
  match n with
  | Some k => (0 <= k)%Z /\ NoDup labels
  | None => True
  end.

(** The number of failure cases of a result. *)
Definition failure_count (r : CheckResult) : nat :=
  match failure_cases r with
  | Some (FcSeries s) => length s
  | Some (FcFrame f) => length (rows f)
  | Some (FcLong l) => length l
  | None => 0
  end.

(** The same check without a bound on the failure cases. *)
Definition unbounded (c : BaseCheck) : BaseCheck :=
  {| _check_fn := _check_fn c;
     _check_kwargs := _check_kwargs c;
     element_wise := element_wise c;
     Checks.groupby := Checks.groupby c;
     groups := groups c;
     ignore_na := ignore_na c;
     n_failure_cases := None |}.

(** The pairs of types that a signature other than (Any, Any) of
    [postprocess] accepts. *)
Definition recognized (obj : check_object) (out : output) : bool :=
  match out, obj with
  | OutBool _, _ => true
  | OutSeries _, Plain _ => true
  | OutFrame _, Plain (Table _) => true
  | _, _ => false
  end.

(** The long-form entries of the cells of column [c], at position [j],
    whose output is false, a missing cell counting as passed under
    [ignore]; [rs] pairs each row of the table with its row of the
    output. *)
Definition column_failures (ignore : bool)
    (rs : list ((value * list value) * (value * list bool)))
    (j : nat) (c : string) : list long_row :=
  omap (fun ro : (value * list value) * (value * list bool) =>
          match ro.1.2 !! j, ro.2.2 !! j with
          | Some v, Some b =>
              if b || (ignore && isna v) then None
              else Some (LongRow c ro.1.1 v)
          | _, _ => None
          end) rs.

(** The long-form entries of the failing cells of a table: column after
    column, rows in order. *)
Definition long_failures (ignore : bool) (t : frame value) (o : frame bool)
  : list long_row :=
  concat (imap (column_failures ignore (zip (rows t) (rows o))) (columns t)).

(** The entry of the unstacked table that fails, given the entry of the
    unstacked output next to it. *)
Definition failing_entry (ignore : bool)
    (x : (label * value) * (label * bool)) : option (label * value) :=
  if x.2.2 || (ignore && isna x.1.2) then None else Some x.1.

(** A row of the table and a row of the output with the same label and
    the same number of cells. *)
Definition aligned (a : value * list value) (b : value * list bool) : Prop :=
  a.1 = b.1 /\ length a.2 = length b.2.

(** The long-form failure cases under the bound: without a bound all of
    them, with a bound the first [k] of their first occurrences. *)
Definition bounded_long (n : option Z) (l : list long_row) : list long_row :=
  match n with
  | Some k => head k (drop_duplicates l)
  | None => l
  end.

(** The table and its per-cell output have the same columns and the
    same row labels, and both are rectangular. *)
Definition same_layout (t : frame value) (o : frame bool) : Prop :=
  wf_frame t /\ wf_frame o /\
  columns o = columns t /\ (rows o).*1 = (rows t).*1.

(** pandas' grouping by a column name, left undescribed. *)
Definition pd_groupby_unmodelled (c : container) (name : string)
  : outcome groupby_object := Unmodelled.

End Vocabulary.
Export Vocabulary.

(** ** Checks and data used in the examples *)
Module Examples.

(** The predicate "value > 0": on a scalar, on a column (row by row)
    and on a table (cell by cell). *)
Definition positive_value (v : value) : bool :=
  match v with VInt z => (0 <? z)%Z | _ => false end.

Definition positive (a : pyarg) (kwargs : list (string * value))
  : outcome output :=
  match a with
  | ArgScalar v => Ok (OutBool (positive_value v))
  | ArgRow _ _ cells => Ok (OutBool (forallb positive_value cells))
  | ArgObj (Column s) => Ok (OutSeries (prod_map id positive_value <$> s))
  | ArgObj (Table f) =>
      Ok (OutFrame (DataFrame (columns f)
                      (prod_map id (List.map positive_value) <$> rows f)))
  | ArgProbe _ => Ok (OutBool true)
  end.

(** The predicate "no value is missing", answering with one [bool]. *)
Definition complete (a : pyarg) (kwargs : list (string * value))
  : outcome output :=
  match a with
  | ArgScalar v => Ok (OutBool (negb (isna v)))
  | ArgRow _ _ cells => Ok (OutBool (negb (existsb isna cells)))
  | ArgObj (Column s) => Ok (OutBool (negb (existsb isna (s_values s))))
  | ArgObj (Table f) =>
      Ok (OutBool (negb (existsb (existsb isna) (rows f).*2)))
  | ArgProbe _ => Ok (OutBool true)
  end.

(** A grouping function: the first row as group "a", the others as
    group "b". *)
Definition halves (c : container) : outcome groupby_object :=
  match c with
  | Column s => Ok [(VStr "a", Column (take 1 s)); (VStr "b", Column (drop 1 s))]
  | Table f =>
      Ok [(VStr "a", Table (DataFrame (columns f) (take 1 (rows f))));
          (VStr "b", Table (DataFrame (columns f) (drop 1 (rows f))))]
  end.

Definition mk_check (fn : pyarg -> list (string * value) -> outcome output)
    (elementwise : bool) (by_ : option grouping) (keys : option (list value))
    (ignore : bool) (n : option Z) : BaseCheck :=
  {| _check_fn := fn; _check_kwargs := []; element_wise := elementwise;
     Checks.groupby := by_; groups := keys; ignore_na := ignore;
     n_failure_cases := n |}.

(** "value > 0" over the groups of [halves], restricted to group "z". *)
Definition check_z : BaseCheck :=
  mk_check positive false (Some (ByFunction halves)) (Some [VStr "z"])
           false None.

Definition range (n : nat) : list value := (fun i => VInt (Z.of_nat i)) <$> seq 0 n.

(** The column with values [vs] under the default index 0, 1, ... *)
Definition column_of {A} (vs : list A) : series A :=
  zip (Single <$> range (length vs)) vs.

(** The table with the given columns and rows under the default index. *)
Definition table_of {A} (cols : list string) (rs : list (list A)) : frame A :=
  DataFrame cols (zip (range (length rs)) rs).

(** Columns a = [1, -1, 2] and b = [3, 4, -2]. *)
Definition table_ab : frame value :=
  table_of ["a"; "b"] [ [VInt 1; VInt 3]; [VInt (-1); VInt 4]; [VInt 2; VInt (-2)] ].

(** A one-cell table and a per-cell output with one row too many. *)
Definition table_one : frame value := table_of ["a"] [ [VInt 1] ].
Definition cells_two : frame bool := table_of ["a"] [ [true]; [true] ].

(** The output of "value > 0" on the cells of [table_ab]. *)
Definition cells_ab : frame bool :=
  table_of ["a"; "b"] [ [true; true]; [false; true]; [true; false] ].

(** The column [1, -1, -2] and the output of "value > 0" on it. *)
Definition column_neg : series value := column_of [VInt 1; VInt (-1); VInt (-2)].
Definition mask_neg : series bool := column_of [true; false; false].

(** The column [1, 2, -1, 4] and the output of "value > 0" on it. *)
Definition column_four : series value :=
  column_of [VInt 1; VInt 2; VInt (-1); VInt 4].
Definition mask_four : series bool := column_of [true; true; false; true].

(** A table with two columns of the same name a, one row of values
    [-1, -1], and the output of "value > 0" on its cells. *)
Definition table_aa : frame value := table_of ["a"; "a"] [ [VInt (-1); VInt (-1)] ].
Definition cells_aa : frame bool := table_of ["a"; "a"] [ [false; false] ].

(** "value > 0" applied to the whole object, at most [k] failure cases. *)
Definition check_at_most (k : Z) : BaseCheck :=
  mk_check positive false None None false (Some k).

(** The predicate "every value is positive" where pandas and numpy
    reduce the comparison themselves: what it returns is a [numpy.bool_]. *)
Definition every_positive (a : pyarg) (kwargs : list (string * value))
  : outcome output :=
  match a with
  | ArgScalar v => Ok (OutNumpyBool (positive_value v))
  | ArgRow _ _ cells => Ok (OutNumpyBool (forallb positive_value cells))
  | ArgObj (Column s) =>
      Ok (OutNumpyBool (forallb positive_value (s_values s)))
  | ArgObj (Table f) =>
      Ok (OutNumpyBool (forallb (forallb positive_value) (rows f).*2))
  | ArgProbe _ => Ok (OutNumpyBool true)
  end.

Definition check_every_positive : BaseCheck :=
  mk_check every_positive false None None false None.

(** "value > 0" applied to the whole object, failure cases unbounded. *)
Definition check_positive : BaseCheck :=
  mk_check positive false None None false None.

End Examples.
Export Examples.

(** ** Further vocabulary, for the properties of the whole backend *)
Module Usage.

(** The same check without grouping. *)
Definition ungrouped (c : BaseCheck) : BaseCheck :=
  {| _check_fn := _check_fn c;
     _check_kwargs := _check_kwargs c;
     element_wise := element_wise c;
     Checks.groupby := None;
     groups := None;
     ignore_na := ignore_na c;
     n_failure_cases := n_failure_cases c |}.

(** A backend on which a caller has assigned the attribute [groups]. *)
Definition with_groups (keys : option (list value)) (self : gmap string attr)
  : gmap string attr :=
  <["groups" := AttrGroups keys]> self.

(** A computation that leaves the log of calls as it found it. *)
Definition silent {A} (m : M A) : Prop := forall log, (m log).2 = log.

(** A computation that makes no call to the predicate. *)
Definition predicate_free {A} (m : M A) : Prop :=
  forall log, predicate_calls (m log).2 = predicate_calls log.

(** The number of rows of a container. *)
Definition nrows (c : container) : nat :=
  match c with
  | Column s => length s
  | Table f => length (rows f)
  end.

(** A column, or a table that has rows and columns. *)
Definition populated (c : container) : bool :=
  match c with
  | Column _ => true
  | Table f => negb (f_empty f)
  end.

(** The predicate calls of an element-wise pass over a column and over
    the rows of a table. *)
Definition scalar_calls (s : series value) : list event :=
  (fun r : label * value => EvCheckFn (ArgScalar r.2)) <$> s.

Definition row_calls (f : frame value) : list event :=
  (fun r : value * list value => EvCheckFn (ArgRow (columns f) r.1 r.2))
    <$> rows f.

(** The requested keys that are no group keys, in the order requested. *)
Definition invalid_keys (gb : groupby_object) (keys : list value) : list value :=
  filter (fun g => g ∉ gb.*1) keys.

(** The message of the KeyError of [_format_groupby_input]. *)
Definition invalid_groups_message (gb : groupby_object) (keys : list value)
  : list fragment :=
  [ Text "groups "; ReprList (invalid_keys gb keys);
    Text " provided in `groups` argument not a valid group key. Valid group keys: ";
    ReprSet (list_to_set gb.*1) ].

(** The verdict on a value: the predicate holds, or under [ignore] the
    value is missing. *)
Definition passes (p : value -> bool) (ignore : bool) (v : value) : bool :=
  p v || (ignore && isna v).

(** The row of a table fails under the output [b] of its row: the
    output is false, and under [ignore] no cell of the row is missing. *)
Definition failing_row (ignore : bool)
    (x : (value * list value) * (label * bool)) : option (value * list value) :=
  if x.2.2 || (ignore && existsb isna x.1.2) then None else Some x.1.

(** "value > 0" applied element by element, failure cases unbounded. *)
Definition check_each_positive : BaseCheck :=
  mk_check positive true None None false None.

(** A predicate on integers that raises on anything else. *)
Definition positive_integer (a : pyarg) (kwargs : list (string * value))
  : outcome output :=
  match a with
  | ArgScalar (VInt z) => Ok (OutBool (0 <? z)%Z)
  | _ => Raise (UserError "not an integer")
  end.

Definition check_each_integer : BaseCheck :=
  mk_check positive_integer true None None false None.

(** The predicate [lambda x: operator.index(x) > 0]: on anything but an
    integer, [operator.index] raises a TypeError that names the type. *)
Definition not_an_integer (ty : string) : exn :=
  TypeError [ Text "'"; Text ty;
              Text "' object cannot be interpreted as an integer" ].

Definition index_positive (a : pyarg) (kwargs : list (string * value))
  : outcome output :=
  match a with
  | ArgScalar (VInt z) => Ok (OutBool (0 <? z)%Z)
  | ArgScalar (VStr _) => Raise (not_an_integer "str")
  | ArgScalar VNa => Raise (not_an_integer "float")
  | ArgObj (Table _) => Raise (not_an_integer "DataFrame")
  | ArgObj (Column _) | ArgRow _ _ _ | ArgProbe _ =>
      Raise (not_an_integer "Series")
  end.

Definition check_each_index : BaseCheck :=
  mk_check index_positive true None None false None.

(** The column [1, "x", 3], cut before and after its second row. *)
Definition column_before : series value := [(Single (VInt 0), VInt 1)].
Definition column_after : series value := [(Single (VInt 2), VInt 3)].

End Usage.
Export Usage.

(** ** Properties *)

(** *** The computation monad *)

Lemma bind_unfold {A B} (m : M A) (k : A -> M B) log :
  (m ≫= k) log =
  match m log with
  | (Ok a, log') => k a log'
  | (Raise e, log') => (Raise e, log')
  | (Unmodelled, log') => (Unmodelled, log')
  end.
Proof. reflexivity. Qed.

Lemma ret_unfold {A} (a : A) log : mret (M := M) a log = (Ok a, log).
Proof. reflexivity. Qed.

Lemma bind_ok {A B} (m : M A) (k : A -> M B) log b log' :
  (m ≫= k) log = (Ok b, log') ->
  exists a log1, m log = (Ok a, log1) /\ k a log1 = (Ok b, log').
Proof.
  rewrite bind_unfold. destruct (m log) as [[a|e|] log1]; intros H.
  - exists a, log1. split; [reflexivity | exact H].
  - discriminate H.
  - discriminate H.
Qed.

Lemma ret_ok {A} (a b : A) log log' :
  mret (M := M) a log = (Ok b, log') -> a = b /\ log = log'.
Proof. intros H. injection H as -> ->. split; reflexivity. Qed.

(** *** Calls through multimethod *)

Lemma multimethod_eq {A} fn (body : M A) log o log' :
  body log = (o, log') ->
  multimethod fn body log = (reraise_outcome fn o, log').
Proof. intros H. unfold multimethod. rewrite H. reflexivity. Qed.

Lemma multimethod_ok {A} fn (body : M A) log a log' :
  body log = (Ok a, log') -> multimethod fn body log = (Ok a, log').
Proof. intros H. unfold multimethod. rewrite H. reflexivity. Qed.

Lemma multimethod_ok_inv {A} fn (body : M A) log a log' :
  multimethod fn body log = (Ok a, log') -> body log = (Ok a, log').
Proof.
  unfold multimethod. destruct (body log) as [[a'|e|] l]; cbn; intros H.
  - exact H.
  - discriminate H.
  - discriminate H.
Qed.

Lemma multimethod_log {A} fn (body : M A) log :
  (multimethod fn body log).2 = (body log).2.
Proof. reflexivity. Qed.

Lemma multimethod_is_ok {A} fn (body : M A) log :
  is_ok (multimethod fn body log).1 = is_ok (body log).1.
Proof. unfold multimethod. destruct (body log) as [[a|e|] l]; reflexivity. Qed.

Lemma reraise_other fn e : is_type_error e = false -> reraise fn e = e.
Proof. unfold reraise. intros ->. reflexivity. Qed.

Lemma reraise_type_error fn e :
  is_type_error e = true -> reraise fn e = DispatchErrorFrom fn e.
Proof. unfold reraise. intros ->. reflexivity. Qed.

Lemma is_type_error_reraise fn e :
  is_type_error (reraise fn e) = is_type_error e.
Proof. unfold reraise. destruct (is_type_error e) eqn:E; [reflexivity | exact E]. Qed.

Lemma reraise_assertion fn e :
  reraise fn e = AssertionError <-> e = AssertionError.
Proof.
  unfold reraise. destruct (is_type_error e) eqn:E.
  - split; [discriminate | intros ->; discriminate E].
  - tauto.
Qed.

Lemma multimethod_assertion {A} fn (body : M A) log log' :
  multimethod fn body log = (Raise AssertionError, log') <->
  body log = (Raise AssertionError, log').
Proof.
  unfold multimethod. destruct (body log) as [[a|e|] l]; cbn;
    split; intros H; try discriminate H.
  - injection H as H <-. apply reraise_assertion in H. subst e. reflexivity.
  - injection H as -> <-. reflexivity.
Qed.

(** *** The instance built by the constructor *)

Lemma init_check check :
  __init__ check !! "check" = Some (AttrCheck check).
Proof.
  unfold __init__. rewrite lookup_insert_ne by discriminate.
  apply lookup_insert_eq.
Qed.

Lemma init_check_fn check :
  __init__ check !! "check_fn" =
  Some (AttrFn (partial (_check_fn check) (_check_kwargs check))).
Proof. unfold __init__. apply lookup_insert_eq. Qed.

Lemma init_groups check : __init__ check !! "groups" = None.
Proof.
  unfold __init__. rewrite !lookup_insert_ne by discriminate.
  apply lookup_empty.
Qed.

Lemma self_check_init check log :
  self_check (__init__ check) log = (Ok check, log).
Proof.
  unfold self_check, getattr. rewrite bind_unfold, init_check. reflexivity.
Qed.

Lemma self_check_fn_init check log :
  self_check_fn (__init__ check) log =
  (Ok (partial (_check_fn check) (_check_kwargs check)), log).
Proof.
  unfold self_check_fn, getattr. rewrite bind_unfold, init_check_fn.
  reflexivity.
Qed.

Lemma self_groups_init check log :
  self_groups (__init__ check) log =
  (Raise (AttributeError class_name "groups"), log).
Proof.
  unfold self_groups, getattr. rewrite bind_unfold, init_groups.
  reflexivity.
Qed.

(** *** Grouped preprocessing *)

Lemma format_calls_app log1 log2 :
  format_calls (log1 ++ log2) = format_calls log1 + format_calls log2.
Proof. unfold format_calls. rewrite List.filter_app. apply length_app. Qed.

Lemma predicate_calls_app log1 log2 :
  predicate_calls (log1 ++ log2) = predicate_calls log1 + predicate_calls log2.
Proof. unfold predicate_calls. rewrite List.filter_app. apply length_app. Qed.

(** The grouping step calls neither the predicate nor
    [_format_groupby_input]. *)
Lemma groupby_log pd_groupby check col log :
  let r := groupby pd_groupby (__init__ check) col log in
  format_calls r.2 = format_calls log /\
  predicate_calls r.2 = predicate_calls log.
Proof.
  unfold groupby. rewrite bind_unfold, self_check_init.
  destruct (Checks.groupby check) as [[name|fn]|]; cbn.
  - split; reflexivity.
  - rewrite bind_unfold. unfold tell, lift.
    destruct (fn col); cbn [snd];
      rewrite format_calls_app, predicate_calls_app; cbn; lia.
  - split; reflexivity.
Qed.

(** With [groupby] set, preprocessing a table that gets past the
    projection and the grouping ends at the read of [self.groups]. *)
Lemma preprocess_grouped pd_groupby check g f key log col :
  Checks.groupby check = Some g ->
  projected f key = Ok col ->
  preprocess pd_groupby (__init__ check) (Table f) key log =
  match groupby pd_groupby (__init__ check) col log with
  | (Ok _, log1) => (Raise (AttributeError class_name "groups"), log1)
  | (Raise e, log1) => (Raise (reraise "preprocess" e), log1)
  | (Unmodelled, log1) => (Unmodelled, log1)
  end.
Proof.
  intros Hg Hp.
  assert (Hin : preprocess_grouped_input pd_groupby (__init__ check) col log =
                match groupby pd_groupby (__init__ check) col log with
                | (Ok _, log1) =>
                    (Raise (AttributeError class_name "groups"), log1)
                | (Raise e, log1) => (Raise e, log1)
                | (Unmodelled, log1) => (Unmodelled, log1)
                end).
  { unfold preprocess_grouped_input. rewrite bind_unfold.
    destruct (groupby pd_groupby (__init__ check) col log) as [[gb|e|] log1];
      reflexivity. }
  destruct key as [k|]; cbn in Hp; cbn [preprocess].
  - assert (Hbody : preprocess_frame_key pd_groupby (__init__ check) f k log =
                    preprocess_grouped_input pd_groupby (__init__ check)
                      col log).
    { unfold preprocess_frame_key. rewrite bind_unfold. unfold lift at 1.
      rewrite Hp. rewrite bind_unfold, self_check_init, Hg. reflexivity. }
    unfold multimethod. rewrite Hbody, Hin.
    destruct (groupby pd_groupby (__init__ check) col log) as [[gb|e|] log1];
      reflexivity.
  - injection Hp as <-.
    assert (Hbody : preprocess_frame pd_groupby (__init__ check) f log =
                    preprocess_grouped_input pd_groupby (__init__ check)
                      (Table f) log).
    { unfold preprocess_frame. rewrite bind_unfold, self_check_init, Hg.
      reflexivity. }
    unfold multimethod. rewrite Hbody, Hin.
    destruct (groupby pd_groupby (__init__ check) (Table f) log)
      as [[gb|e|] log1]; reflexivity.
Qed.

(** C2. For every check whose [groupby] is set, preprocessing a table, with
    or without a column key, reads [self.groups], an attribute that
    [__init__] never assigns: the instance has no such entry, preprocessing
    never returns an object and never enters [_format_groupby_input] (nor
    calls the predicate), and whenever the projection and the grouping
    themselves succeed it ends in the AttributeError for [groups]. *)
Theorem grouped_preprocess_reads_unassigned_groups
    (pd_groupby : container -> string -> outcome groupby_object)
    (check : BaseCheck) (g : grouping) (f : frame value)
    (key : option string) (log : list event) :
  Checks.groupby check = Some g ->
  __init__ check !! "groups" = None /\
  is_ok (preprocess pd_groupby (__init__ check) (Table f) key log).1 = false /\
  format_calls (preprocess pd_groupby (__init__ check) (Table f) key log).2
    = format_calls log /\
  predicate_calls (preprocess pd_groupby (__init__ check) (Table f) key log).2
    = predicate_calls log /\
  forall col gb log1,
    projected f key = Ok col ->
    groupby pd_groupby (__init__ check) col log = (Ok gb, log1) ->
    preprocess pd_groupby (__init__ check) (Table f) key log =
    (Raise (AttributeError class_name "groups"), log1).
Proof.
  intros Hg. split; [apply init_groups|].
  destruct (projected f key) as [col| e |] eqn:Hp.
  - rewrite (preprocess_grouped _ _ _ _ _ _ _ Hg Hp).
    pose proof (groupby_log pd_groupby check col log) as [Hf Hc].
    destruct (groupby pd_groupby (__init__ check) col log)
      as [[gb|e|] log1] eqn:Hgb;
      cbn in *; repeat split; try assumption;
      intros col' gb' log1' [= <-] H; rewrite Hgb in H;
      [injection H as _ <-; reflexivity | discriminate H | discriminate H].
  - destruct key as [k|]; [|discriminate Hp]. cbn in Hp.
    assert (Hbody : preprocess_frame_key pd_groupby (__init__ check) f k log
                    = (Raise e, log)).
    { unfold preprocess_frame_key. rewrite bind_unfold. unfold lift at 1.
      rewrite Hp. reflexivity. }
    cbn [preprocess]. rewrite (multimethod_eq _ _ _ _ _ Hbody).
    cbn. repeat split; try reflexivity. intros col gb log1 [=].
  - destruct key as [k|]; [|discriminate Hp]. cbn in Hp.
    assert (Hbody : preprocess_frame_key pd_groupby (__init__ check) f k log
                    = (Unmodelled, log)).
    { unfold preprocess_frame_key. rewrite bind_unfold. unfold lift at 1.
      rewrite Hp. reflexivity. }
    cbn [preprocess]. rewrite (multimethod_eq _ _ _ _ _ Hbody).
    cbn. repeat split; try reflexivity. intros col gb log1 [=].
Qed.

(** The instance of C2 at the check "value > 0 per group of [halves],
    groups restricted to z" on the table with columns a and b. *)
Lemma grouped_preprocess_witness :
  Checks.groupby check_z = Some (ByFunction halves) /\
  preprocess pd_groupby_unmodelled (__init__ check_z) (Table table_ab) None []
  = (Raise (AttributeError class_name "groups"), [EvGroupbyFn (Table table_ab)]).
Proof.
  split; [reflexivity|].
  destruct (grouped_preprocess_reads_unassigned_groups
              pd_groupby_unmodelled check_z (ByFunction halves) table_ab None []
              eq_refl) as (_ & _ & _ & _ & H).
  eapply H; reflexivity.
Defined.

(** [_format_groupby_input] on its own: a requested key that is no group
    key makes it raise the KeyError that carries the requested keys that
    are no group keys, in the order requested, and the set of group keys. *)
Lemma format_groupby_input_invalid (gb : groupby_object) (keys : list value)
    (g : value) :
  g ∈ keys -> g ∉ gb.*1 ->
  exists invalid,
    _format_groupby_input gb (Some keys) =
    Raise (KeyError
      [ Text "groups "; ReprList invalid;
        Text " provided in `groups` argument not a valid group key. Valid group keys: ";
        ReprSet (list_to_set gb.*1) ]) /\
    g ∈ invalid /\
    forall x, x ∈ invalid <-> x ∈ keys /\ x ∉ gb.*1.
Proof.
  intros Hin Hout.
  exists (filter (fun x => x ∉ (list_to_set gb.*1 : gset value)) keys).
  assert (Hspec : forall x,
    x ∈ filter (fun x => x ∉ (list_to_set gb.*1 : gset value)) keys
    <-> x ∈ keys /\ x ∉ gb.*1).
  { intros x. rewrite list_elem_of_filter, elem_of_list_to_set. tauto. }
  assert (Hg : g ∈ filter (fun x => x ∉ (list_to_set gb.*1 : gset value)) keys).
  { apply Hspec. split; assumption. }
  split; [|split; assumption].
  unfold _format_groupby_input.
  destruct (filter _ keys) as [|x l] eqn:E; [|reflexivity].
  inversion Hg.
Qed.

(** With every requested key among the group keys it returns the groups
    of the requested keys. *)
Lemma format_groupby_input_valid (gb : groupby_object) (keys : list value) :
  (forall g, g ∈ keys -> g ∈ gb.*1) ->
  _format_groupby_input gb (Some keys) =
  Ok (dict (filter (fun kg : value * container => kg.1 ∈ keys) gb)).
Proof.
  intros Hall. unfold _format_groupby_input.
  destruct (filter _ keys) as [|x l] eqn:E; [reflexivity|].
  assert (Hx : x ∈ filter (fun x => x ∉ (list_to_set gb.*1 : gset value)) keys)
    by (rewrite E; left).
  apply list_elem_of_filter in Hx as [Hx1 Hx2].
  exfalso. apply Hx1. apply elem_of_list_to_set. apply Hall, Hx2.
Qed.

(** C1. At the check of the specification's example (groups a and b exist,
    group z is requested) the pipeline does not raise the lookup error:
    it raises the AttributeError of the read of [self.groups], after the
    grouping function ran and before any predicate call, although
    [_format_groupby_input] given the same groups and [check.groups] raises
    the KeyError that names z as invalid and a, b as valid. *)
Theorem invalid_group_key_raises_attribute_error :
  __call__ pd_groupby_unmodelled (__init__ check_z) (Table table_ab) None []
  = (Raise (AttributeError class_name "groups"), [EvGroupbyFn (Table table_ab)])
  /\ predicate_calls [EvGroupbyFn (Table table_ab)] = 0
  /\ exists gb,
      halves (Table table_ab) = Ok gb /\
      _format_groupby_input gb (groups check_z) =
      Raise (KeyError
        [ Text "groups "; ReprList [VStr "z"];
          Text " provided in `groups` argument not a valid group key. Valid group keys: ";
          ReprSet {[ VStr "a"; VStr "b" ]} ]).
Proof.
  split; [vm_compute; reflexivity|]. split; [reflexivity|].
  eexists. split; [reflexivity|]. vm_compute. reflexivity.
Qed.

(** *** Dispatch and the scalar case *)

Ltac inv_bind H :=
  let a := fresh "a" in
  let l := fresh "log" in
  let H1 := fresh H in
  apply bind_ok in H as (a & l & H1 & H).

Lemma forallb_id_Forall (l : list bool) :
  forallb id l = true <-> Forall (fun b => b = true) l.
Proof.
  induction l as [|b l IH]; cbn.
  - split; [constructor | reflexivity].
  - rewrite andb_true_iff, Forall_cons, IH. reflexivity.
Qed.

Lemma apply_series_whole check s log :
  element_wise check = false ->
  apply_series (__init__ check) s log =
  (_check_fn check (ArgObj (Column s)) (_check_kwargs check),
   log ++ [EvCheckFn (ArgObj (Column s))]).
Proof.
  intros He. unfold apply_series.
  rewrite bind_unfold, self_check_init, bind_unfold, self_check_fn_init, He.
  unfold call. rewrite bind_unfold. reflexivity.
Qed.

Lemma apply_frame_whole check f log :
  element_wise check = false ->
  apply_frame (__init__ check) f log =
  (_check_fn check (ArgObj (Table f)) (_check_kwargs check),
   log ++ [EvCheckFn (ArgObj (Table f))]).
Proof.
  intros He. unfold apply_frame.
  rewrite bind_unfold, self_check_init, bind_unfold, self_check_fn_init, He.
  unfold call. rewrite bind_unfold. reflexivity.
Qed.

Lemma apply_whole check (obj : container) log :
  element_wise check = false ->
  apply (__init__ check) (Plain obj) log =
  (reraise_outcome "apply" (_check_fn check (ArgObj obj) (_check_kwargs check)),
   log ++ [EvCheckFn (ArgObj obj)]).
Proof.
  intros He. destruct obj as [s|f]; cbn [apply].
  - apply multimethod_eq, apply_series_whole, He.
  - apply multimethod_eq, apply_frame_whole, He.
Qed.

(** The claim C10 fails for a boolean scalar that is no Python [bool]:
    the predicate "every value is positive", a reduction of pandas, returns
    the [numpy.bool_] True on the column [1, 2]; with [element_wise] false
    the pipeline calls it once and then raises, so that there is no result
    whose [check_passed] could equal what the predicate returned. *)
Lemma numpy_bool_scalar_raises :
  element_wise check_every_positive = false /\
  _check_fn check_every_positive (ArgObj (Column (column_of [VInt 1; VInt 2])))
    (_check_kwargs check_every_positive) = Ok (OutNumpyBool true) /\
  __call__ pd_groupby_unmodelled (__init__ check_every_positive)
    (Column (column_of [VInt 1; VInt 2])) None [] =
  (Raise (DispatchErrorFrom "postprocess"
            (TypeError [ Text "output type of check_fn not recognized: ";
                         ReprType "<class 'numpy.bool_'>" ])),
   [EvCheckFn (ArgObj (Column (column_of [VInt 1; VInt 2])))]) /\
  forall r log',
    __call__ pd_groupby_unmodelled (__init__ check_every_positive)
      (Column (column_of [VInt 1; VInt 2])) None [] <> (Ok r, log').
Proof.
  split; [reflexivity|]. split; [reflexivity|]. split; [reflexivity|].
  intros r log' H. vm_compute in H. discriminate H.
Qed.

(** C10. For every check with [element_wise] false whose predicate,
    called on the preprocessed object, returns a Python [bool], the
    pipeline returns a result whose [check_passed] (and [check_output]) is
    that boolean and whose [failure_cases] is absent; the predicate was
    called once. So does [postprocess] for any object and any [bool]. A
    [numpy.bool_] is no [bool]: it is dispatched to the signature for any
    output, which raises. *)
Theorem scalar_predicate_result
    (pd_groupby : container -> string -> outcome groupby_object)
    (check : BaseCheck) (obj : container) (key : option string)
    (log log1 : list event) (obj' : container) (b : bool) :
  element_wise check = false ->
  preprocess pd_groupby (__init__ check) obj key log = (Ok (Plain obj'), log1) ->
  _check_fn check (ArgObj obj') (_check_kwargs check) = Ok (OutBool b) ->
  __call__ pd_groupby (__init__ check) obj key log =
    (Ok {| check_output := OutBool b;
           check_passed := b;
           checked_object := Plain obj';
           failure_cases := None |},
     log1 ++ [EvCheckFn (ArgObj obj')]) /\
  (forall self any log2,
    postprocess self any (OutBool b) log2 =
    (Ok {| check_output := OutBool b;
           check_passed := b;
           checked_object := any;
           failure_cases := None |}, log2)) /\
  forall self any log2,
    is_ok (postprocess self any (OutNumpyBool b) log2).1 = false.
Proof.
  intros He Hp Hfn. split; [|split; reflexivity].
  unfold __call__. rewrite bind_unfold, Hp, bind_unfold.
  rewrite (apply_whole _ _ _ He), Hfn. reflexivity.
Qed.

(** The instance of C10 at the check "no value is missing" on the column
    [1, NaN]. *)
Lemma scalar_predicate_witness :
  __call__ pd_groupby_unmodelled
    (__init__ (mk_check complete false None None false None))
    (Column (column_of [VInt 1; VNa])) None [] =
  (Ok {| check_output := OutBool false;
         check_passed := false;
         checked_object := Plain (Column (column_of [VInt 1; VNa]));
         failure_cases := None |},
   [EvCheckFn (ArgObj (Column (column_of [VInt 1; VNa])))]).
Proof.
  apply (scalar_predicate_result pd_groupby_unmodelled
           (mk_check complete false None None false None)
           (Column (column_of [VInt 1; VNa])) None [] []
           (Column (column_of [VInt 1; VNa])) false
           eq_refl eq_refl eq_refl).
Defined.

(** The steps of [postprocess] raise none but their own exceptions. *)
Lemma s_or_raise (a b : series bool) e : s_or a b <> Raise e.
Proof. unfold s_or. case_decide; discriminate. Qed.

Lemma check_bool_indexer_raise index key e :
  check_bool_indexer index key = Raise e -> e = IndexingError.
Proof.
  unfold check_bool_indexer. repeat case_decide; try discriminate.
  destruct (mapM _ index); [discriminate|]. intros [= <-]. reflexivity.
Qed.

Lemma s_getitem_mask_raise {A} (s : series A) key e :
  s_getitem_mask s key = Raise e -> e = IndexingError.
Proof.
  unfold s_getitem_mask.
  destruct (check_bool_indexer (s_index s) key) eqn:E; cbn; try discriminate.
  intros [= <-]. eapply check_bool_indexer_raise, E.
Qed.

Lemma reset_index_raise s e :
  reset_index s = Raise e ->
  e = ValueError "Length of names must match number of levels".
Proof.
  unfold reset_index. destruct (mapM _ s); [discriminate|].
  intros [= <-]. reflexivity.
Qed.

(** C8. For every table and every per-cell output, [postprocess] raises
    the AssertionError of the shape assertion, before any other step,
    exactly when the shape of the output differs from the shape of the
    table: no result is produced from mismatched shapes. *)
Theorem cell_shape_mismatch_raises
    (check : BaseCheck) (t : frame value) (o : frame bool) (log : list event) :
  postprocess (__init__ check) (Plain (Table t)) (OutFrame o) log
    = (Raise AssertionError, log)
  <-> shape t <> shape o.
Proof.
  cbn [postprocess]. rewrite multimethod_assertion.
  unfold postprocess_table_cells.
  case_decide as Hs.
  - split; [|intros Hn; contradiction].
    intros H. exfalso. cbv zeta in H.
    rewrite bind_unfold, self_check_init in H.
    rewrite bind_unfold in H.
    destruct (ignore_na check).
    + unfold lift at 1 in H.
      destruct (s_or (unstack o) (s_isna (unstack t))) as [co|e|] eqn:Eor;
        [| exact (s_or_raise _ _ _ Eor) | discriminate H].
      rewrite bind_unfold in H. unfold lift at 1 in H.
      destruct (s_getitem_mask (unstack t) (s_not co)) as [sel|e|] eqn:Esel;
        [| apply s_getitem_mask_raise in Esel; subst e; discriminate H
         | discriminate H].
      rewrite bind_unfold in H. unfold lift at 1 in H.
      destruct (reset_index sel) as [fc|e|] eqn:Efc;
        [| apply reset_index_raise in Efc; subst e; discriminate H
         | discriminate H].
      rewrite bind_unfold in H.
      destruct fc; [discriminate H|].
      rewrite bind_unfold, self_check_init in H. discriminate H.
    + unfold mret, M_ret in H.
      rewrite bind_unfold in H. unfold lift at 1 in H.
      destruct (s_getitem_mask (unstack t) (s_not (unstack o)))
        as [sel|e|] eqn:Esel;
        [| apply s_getitem_mask_raise in Esel; subst e; discriminate H
         | discriminate H].
      rewrite bind_unfold in H. unfold lift at 1 in H.
      destruct (reset_index sel) as [fc|e|] eqn:Efc;
        [| apply reset_index_raise in Efc; subst e; discriminate H
         | discriminate H].
      rewrite bind_unfold in H.
      destruct fc; [discriminate H|].
      rewrite bind_unfold, self_check_init in H. discriminate H.
  - split; [intros _; exact Hs | reflexivity].
Qed.

(** C9, as stated, fails: a per-cell matrix whose shape does not match
    the table is none of the recognized cases, and [postprocess] raises the
    AssertionError of the shape assertion, which is no TypeError and no
    exception of a subclass of TypeError. *)
Lemma mismatched_matrix_raises_no_type_error :
  shape table_one <> shape cells_two /\
  postprocess (__init__ check_positive) (Plain (Table table_one))
              (OutFrame cells_two) []
  = (Raise AssertionError, []) /\
  is_type_error AssertionError = false /\
  (forall msg, Raise (A := CheckResult) AssertionError <> Raise (TypeError msg)).
Proof.
  split; [discriminate|]. split; [reflexivity|]. split; [reflexivity|].
  discriminate.
Qed.

(** C9, amended. For every check output whose type fits no registered
    signature (not a [bool]; not a Series over a column or a table; not a
    DataFrame over a table), [postprocess] returns no result: the signature
    for any output raises the TypeError whose message names the type of
    the output, and the call fails with an exception of the TypeError
    class, the DispatchError that multimethod raises from it. A DataFrame
    output over a table is dispatched on its type alone: with a
    mismatching shape it raises the AssertionError. *)
Theorem unrecognized_output_type_raises
    (self : gmap string attr) (obj : check_object) (out : output)
    (log : list event) :
  recognized obj out = false ->
  postprocess_any out log =
    (Raise (TypeError [ Text "output type of check_fn not recognized: ";
                        ReprType (type_of out) ]), log) /\
  postprocess self obj out log =
    (Raise (DispatchErrorFrom "postprocess"
              (TypeError [ Text "output type of check_fn not recognized: ";
                           ReprType (type_of out) ])), log) /\
  is_type_error
    (DispatchErrorFrom "postprocess"
       (TypeError [ Text "output type of check_fn not recognized: ";
                    ReprType (type_of out) ])) = true /\
  forall check t o,
    shape t <> shape o ->
    postprocess (__init__ check) (Plain (Table t)) (OutFrame o) log
    = (Raise AssertionError, log).
Proof.
  intros Hr. split; [reflexivity|]. split; [|split; [reflexivity|]].
  - destruct out as [b|b|o|o|ty], obj as [[s|f]|d]; try discriminate Hr;
      reflexivity.
  - intros check t o Hs. cbn [postprocess]. apply multimethod_assertion.
    unfold postprocess_table_cells.
    case_decide; [contradiction | reflexivity].
Qed.

(** The instance of C9 at a per-cell matrix returned for a column. *)
Lemma unrecognized_output_type_witness :
  postprocess (__init__ check_positive)
    (Plain (Column (column_of [VInt 1]))) (OutFrame cells_two) [] =
  (Raise (DispatchErrorFrom "postprocess"
            (TypeError [ Text "output type of check_fn not recognized: ";
                         ReprType "<class 'pandas.core.frame.DataFrame'>" ])),
   []).
Proof.
  apply (unrecognized_output_type_raises (__init__ check_positive)
           (Plain (Column (column_of [VInt 1]))) (OutFrame cells_two) []).
  reflexivity.
Defined.

(** *** The verdict *)

(** C3. For every result that [postprocess] produces, whatever the shape
    of the output (a scalar, a row mask over a column, a row mask over a
    table, a cell mask over a table), [check_passed] is true exactly when
    every entry of the result's [check_output], the output after the
    [ignore_na] adjustment, is true. *)
Theorem check_passed_is_and_reduction
    (self : gmap string attr) (obj : check_object) (out : output)
    (log log' : list event) (r : CheckResult) :
  postprocess self obj out log = (Ok r, log') ->
  check_passed r = true <->
  Forall (fun b => b = true) (entries (check_output r)).
Proof.
  intros H.
  destruct out as [b|b|o|o|ty], obj as [[s|f]|d]; cbn [postprocess] in H;
    apply multimethod_ok_inv in H; try discriminate H.
  1-3: injection H as <- _; cbn; rewrite Forall_singleton; reflexivity.
  - unfold postprocess_column in H.
    inv_bind H. inv_bind H. inv_bind H. apply ret_ok in H as [<- _].
    cbn. apply forallb_id_Forall.
  - unfold postprocess_table_rows in H.
    inv_bind H. inv_bind H. inv_bind H. apply ret_ok in H as [<- _].
    cbn. apply forallb_id_Forall.
  - unfold postprocess_table_cells in H.
    case_decide; [|discriminate H]. cbv zeta in H.
    inv_bind H. inv_bind H. inv_bind H. inv_bind H. inv_bind H.
    apply ret_ok in H as [<- _].
    cbn. apply forallb_id_Forall.
Qed.

(** The instance of C3 at "value > 0" per cell of the table with columns
    a = [1, -1, 2] and b = [3, 4, -2]: the check does not pass, and an
    entry of the output is false. *)
Lemma check_passed_witness :
  exists r,
    postprocess (__init__ check_positive) (Plain (Table table_ab))
      (OutFrame cells_ab) []
    = (Ok r, []) /\
    check_passed r = false /\
    (check_passed r = true <->
     Forall (fun b => b = true) (entries (check_output r))).
Proof.
  eexists. split; [vm_compute; reflexivity|]. split; [reflexivity|].
  apply (check_passed_is_and_reduction (__init__ check_positive)
           (Plain (Table table_ab)) (OutFrame cells_ab) [] []).
  vm_compute. reflexivity.
Defined.

(** *** Failure cases of a row mask *)

Lemma s_index_not (o : series bool) : s_index (s_not o) = s_index o.
Proof.
  unfold s_index, s_not. induction o as [|[l b] o IH]; cbn; [reflexivity|].
  f_equal. exact IH.
Qed.

Lemma s_values_not (o : series bool) : s_values (s_not o) = negb <$> s_values o.
Proof.
  unfold s_values, s_not. induction o as [|[l b] o IH]; cbn; [reflexivity|].
  f_equal. exact IH.
Qed.

Lemma at_false_cons {X} (x : X) (items : list X) (b : bool) (o : list bool) :
  at_false (x :: items) (b :: o) =
  if b then at_false items o else x :: at_false items o.
Proof. unfold at_false. cbn. destruct b; reflexivity. Qed.

Lemma select_negb {X} (items : list X) (o : list bool) :
  select items (negb <$> o) = at_false items o.
Proof.
  revert o. induction items as [|x items IH]; intros [|b o];
    try reflexivity.
  rewrite at_false_cons. cbn. rewrite IH. destruct b; reflexivity.
Qed.

Lemma at_false_fmap {X Y} (f : X -> Y) (items : list X) (o : list bool) :
  f <$> at_false items o = at_false (f <$> items) o.
Proof.
  revert o. induction items as [|x items IH]; intros [|b o];
    try reflexivity.
  rewrite fmap_cons, !at_false_cons. destruct b; [apply IH|].
  rewrite fmap_cons, IH. reflexivity.
Qed.

Lemma at_false_same_length {X Y} (xs : list X) (ys : list Y) (o : list bool) :
  length xs = length ys ->
  length (at_false xs o) = length (at_false ys o).
Proof.
  revert ys o. induction xs as [|x xs IH]; intros [|y ys] [|b o] Hl;
    try discriminate Hl; try reflexivity.
  injection Hl as Hl. rewrite !at_false_cons.
  destruct b; cbn; rewrite (IH ys o Hl); reflexivity.
Qed.

(** The mask [~check_output] of an output that carries the index of the
    object selects the items at the false positions. *)
Lemma mask_of_output (labels : list label) (o : series bool) :
  s_index o = labels ->
  check_bool_indexer labels (s_not o) = Ok (negb <$> s_values o).
Proof.
  intros Hi. unfold check_bool_indexer.
  rewrite s_index_not, s_values_not. case_decide; [reflexivity|contradiction].
Qed.

Lemma count_key_cons (k : bool) (seen : list bool) :
  count_key k (k :: seen) = S (count_key k seen).
Proof. unfold count_key. rewrite filter_cons_True by reflexivity. reflexivity. Qed.

Lemma slice_stop_nonneg (n : Z) (len : nat) :
  (0 <= n)%Z -> slice_stop n len = Z.to_nat n.
Proof.
  intros Hn. unfold slice_stop.
  destruct (0 <=? n)%Z eqn:E; [reflexivity|]. apply Z.leb_gt in E. lia.
Qed.

(** With a single group, the per-group head is the head. *)
Lemma group_head_single {X} (n : Z) (sizes seen : list bool)
    (items : list X) (keys : list (option bool)) :
  (0 <= n)%Z ->
  Forall (fun k => k = Some false) keys ->
  length keys = length items ->
  group_head n sizes seen items keys =
  take (Z.to_nat n - count_key false seen) items.
Proof.
  intros Hn. revert seen keys.
  induction items as [|x items IH]; intros seen keys Hk Hl.
  - destruct keys; cbn; rewrite ?take_nil; reflexivity.
  - destruct keys as [|k keys]; [discriminate Hl|].
    apply Forall_cons in Hk as [-> Hk]. injection Hl as Hl.
    cbn [group_head]. rewrite slice_stop_nonneg by exact Hn.
    rewrite (IH (false :: seen) keys Hk Hl), count_key_cons.
    case_decide as Hc.
    + destruct (Z.to_nat n - count_key false seen) as [|m] eqn:E; [lia|].
      cbn. f_equal. f_equal. lia.
    + replace (Z.to_nat n - count_key false seen) with 0 by lia.
      replace (Z.to_nat n - S (count_key false seen)) with 0 by lia.
      rewrite !take_0. reflexivity.
Qed.

Lemma assoc_NoDup {A} (s : series A) (l : label) (a : A) :
  NoDup (s_index s) -> (l, a) ∈ s -> assoc l s = Some a.
Proof.
  unfold s_index. induction s as [|[l' a'] s IH]; cbn; intros Hnd Hin.
  - inversion Hin.
  - apply NoDup_cons in Hnd as [Hl' Hnd].
    apply elem_of_cons in Hin as [[= <- <-]|Hin].
    + case_decide; [reflexivity|contradiction].
    + case_decide as Heq.
      * subst l'. exfalso. apply Hl'.
        apply list_elem_of_fmap. exists (l, a). split; [reflexivity|exact Hin].
      * apply IH; assumption.
Qed.

(** The labels at the false positions carry the value false. *)
Lemma at_false_labels (o : series bool) :
  Forall (fun l => (l, false) ∈ o) (at_false (s_index o) (s_values o)).
Proof.
  unfold s_index, s_values. induction o as [|[l b] o IH].
  - constructor.
  - assert (IH' : Forall (fun l0 => (l0, false) ∈ (l, b) :: o)
                         (at_false o.*1 o.*2)).
    { eapply Forall_impl; [exact IH|]. intros l0 H0. right. exact H0. }
    rewrite !fmap_cons, at_false_cons. cbn [fst snd].
    destruct b; [exact IH'|].
    constructor; [left | exact IH'].
Qed.

(** Grouping the failing rows by the output puts them all in the group of
    the output value false. *)
Lemma convert_grouper_failing (o : series bool) :
  NoDup (s_index o) ->
  exists keys,
    convert_grouper (at_false (s_index o) (s_values o)) o = Ok keys /\
    Forall (fun k => k = Some false) keys /\
    length keys = length (at_false (s_index o) (s_values o)).
Proof.
  intros Hnd. pose proof (at_false_labels o) as Hl.
  unfold convert_grouper. case_decide as Heq.
  - exists (Some <$> s_values o). split; [reflexivity|]. split.
    + rewrite <- Heq in Hl. apply Forall_fmap.
      apply Forall_forall. intros b Hb.
      apply list_elem_of_fmap in Hb as ([l b'] & -> & Hb). cbn.
      assert (Hf : (l, false) ∈ o).
      { eapply Forall_forall in Hl; [exact Hl|].
        apply list_elem_of_fmap. exists (l, b'). split; [reflexivity|exact Hb]. }
      pose proof (assoc_NoDup o l b' Hnd Hb) as H1.
      pose proof (assoc_NoDup o l false Hnd Hf) as H2.
      congruence.
    + rewrite <- Heq. unfold s_index, s_values.
      rewrite !length_fmap. reflexivity.
  - case_decide; [|contradiction].
    eexists. split; [reflexivity|]. split.
    + apply Forall_fmap. eapply Forall_impl; [exact Hl|].
      intros l Hin. cbn. apply assoc_NoDup; assumption.
    + apply length_fmap.
Qed.

(** The bounded failure cases of a row mask: the first [n] items at the
    false positions. *)
Lemma groupby_head_failing {X} (labels : list label) (items : list X)
    (o : series bool) (n : Z) :
  s_index o = labels -> NoDup labels -> length items = length labels ->
  (0 <= n)%Z ->
  groupby_head (at_false labels (s_values o)) (at_false items (s_values o)) o n
  = Ok (take (Z.to_nat n) (at_false items (s_values o))).
Proof.
  intros Hi Hnd Hlen Hn. subst labels.
  destruct (convert_grouper_failing o Hnd) as (keys & Hk & Hall & Hkl).
  unfold groupby_head. rewrite Hk. cbn [obind]. f_equal.
  rewrite group_head_single; [rewrite Nat.sub_0_r; reflexivity | exact Hn
                             | exact Hall |].
  rewrite Hkl. apply at_false_same_length. symmetry. exact Hlen.
Qed.

Lemma bounded_nil {X} (n : option Z) : bounded n ([] : list X) = [].
Proof. destruct n; cbn; [apply take_nil | reflexivity]. Qed.

(** [_get_series_failure_cases] on a column whose output carries its
    index: the values at the false positions, cut to the bound. *)
Lemma get_failure_cases_column check (c : series value) (o : series bool) log :
  s_index o = s_index c ->
  bound_ok (n_failure_cases check) (s_index c) ->
  _get_series_failure_cases (__init__ check) (Column c) o log =
  (Ok (FcSeries (bounded (n_failure_cases check) (at_false c (s_values o)))),
   log).
Proof.
  intros Hi Hb. unfold _get_series_failure_cases.
  rewrite bind_unfold. unfold lift at 1, s_getitem_mask.
  rewrite (mask_of_output _ _ Hi). cbn [obind]. rewrite select_negb.
  rewrite bind_unfold.
  destruct (at_false c (s_values o)) as [|x fc] eqn:Efc.
  - cbn. rewrite bounded_nil. reflexivity.
  - cbn [s_empty]. rewrite bind_unfold, self_check_init.
    destruct (n_failure_cases check) as [k|]; [|reflexivity].
    destruct Hb as [Hk Hnd].
    change (foreign_engine (module_of (Column (x :: fc)))) with false.
    rewrite ret_unfold. cbv iota. rewrite bind_unfold. unfold lift at 1.
    rewrite <- Efc. unfold s_index at 1. rewrite at_false_fmap.
    change (c.*1) with (s_index c).
    rewrite (groupby_head_failing (s_index c) c o k Hi Hnd); [reflexivity| |exact Hk].
    unfold s_index. rewrite length_fmap. reflexivity.
Qed.

Lemma f_index_length {A} (f : frame A) : length (f_index f) = length (rows f).
Proof. unfold f_index. rewrite !length_fmap. reflexivity. Qed.

(** [_get_series_failure_cases] on a table whose output carries its
    index: the rows at the false positions, cut to the bound. *)
Lemma get_failure_cases_table check (t : frame value) (o : series bool) log :
  s_index o = f_index t ->
  columns t <> [] ->
  bound_ok (n_failure_cases check) (f_index t) ->
  _get_series_failure_cases (__init__ check) (Table t) o log =
  (Ok (FcFrame (DataFrame (columns t)
                  (bounded (n_failure_cases check)
                           (at_false (rows t) (s_values o))))),
   log).
Proof.
  intros Hi Hc Hb. unfold _get_series_failure_cases.
  rewrite bind_unfold. unfold lift at 1, f_getitem_mask.
  rewrite (mask_of_output _ _ Hi). cbn [obind]. rewrite select_negb.
  rewrite bind_unfold. unfold f_empty. cbn [rows columns].
  destruct (at_false (rows t) (s_values o)) as [|x fc] eqn:Efc.
  - cbn. rewrite bounded_nil. reflexivity.
  - destruct (columns t) as [|c0 cols] eqn:Ec; [contradiction|].
    rewrite bind_unfold, self_check_init.
    destruct (n_failure_cases check) as [k|]; [|reflexivity].
    destruct Hb as [Hk Hnd].
    change (foreign_engine (module_of (Table (DataFrame (c0 :: cols) (x :: fc)))))
      with false.
    rewrite ret_unfold. cbv iota. rewrite bind_unfold. unfold lift at 1.
    cbn [rows columns]. rewrite <- Efc.
    unfold f_index at 1. cbn [rows].
    rewrite <- list_fmap_compose, at_false_fmap, list_fmap_compose.
    fold (f_index t).
    rewrite (groupby_head_failing (f_index t) (rows t) o k Hi Hnd);
      [reflexivity| |exact Hk].
    symmetry. apply f_index_length.
Qed.

Lemma s_index_isna (c : series value) : s_index (s_isna c) = s_index c.
Proof.
  unfold s_index, s_isna. induction c as [|[l v] c IH]; cbn; [reflexivity|].
  f_equal. exact IH.
Qed.

Lemma f_index_isna_any (t : frame value) : s_index (f_isna_any t) = f_index t.
Proof.
  unfold s_index, f_isna_any, f_index.
  induction (rows t) as [|[l r] rs IH]; cbn; [reflexivity|].
  f_equal. exact IH.
Qed.

Lemma zip_or_index (a b : series bool) :
  s_index a = s_index b ->
  s_index (zip_with (fun x y : label * bool => (x.1, x.2 || y.2)) a b)
  = s_index a.
Proof.
  unfold s_index. revert b.
  induction a as [|[l x] a IH]; intros [|[l' y] b] H; cbn in *;
    try discriminate H; [reflexivity|].
  injection H as _ H. f_equal. apply IH, H.
Qed.

(** The adjusted output carries the index of the output. *)
Lemma with_na_index (ignore : bool) (o na : series bool) :
  s_index o = s_index na -> s_index (with_na ignore o na) = s_index o.
Proof.
  intros H. destruct ignore; cbn; [apply zip_or_index, H | reflexivity].
Qed.

Lemma adjust_output (ignore : bool) (o na : series bool) log :
  s_index o = s_index na ->
  (if ignore then lift (s_or o na) else mret o) log
  = (Ok (with_na ignore o na), log).
Proof.
  intros H. destruct ignore; [|reflexivity].
  unfold lift, s_or. case_decide; [reflexivity | contradiction].
Qed.

(** [postprocess] on a column and a row mask that carries its index. *)
Lemma postprocess_column_spec check (c : series value) (o : series bool) log :
  s_index o = s_index c ->
  bound_ok (n_failure_cases check) (s_index c) ->
  let o' := with_na (ignore_na check) o (s_isna c) in
  postprocess (__init__ check) (Plain (Column c)) (OutSeries o) log =
  (Ok {| check_output := OutSeries o';
         check_passed := forallb id (s_values o');
         checked_object := Plain (Column c);
         failure_cases :=
           Some (FcSeries (bounded (n_failure_cases check)
                                   (at_false c (s_values o')))) |}, log).
Proof.
  intros Hi Hb o'. cbn [postprocess]. apply multimethod_ok.
  unfold postprocess_column.
  rewrite bind_unfold, self_check_init, bind_unfold.
  rewrite adjust_output by (rewrite s_index_isna; exact Hi).
  fold o'. rewrite bind_unfold.
  rewrite get_failure_cases_column; [reflexivity| |exact Hb].
  unfold o'. rewrite with_na_index by (rewrite s_index_isna; exact Hi).
  exact Hi.
Qed.

(** [postprocess] on a table and a row mask that carries its index. *)
Lemma postprocess_table_rows_spec check (t : frame value) (o : series bool) log :
  s_index o = f_index t ->
  columns t <> [] ->
  bound_ok (n_failure_cases check) (f_index t) ->
  let o' := with_na (ignore_na check) o (f_isna_any t) in
  postprocess (__init__ check) (Plain (Table t)) (OutSeries o) log =
  (Ok {| check_output := OutSeries o';
         check_passed := forallb id (s_values o');
         checked_object := Plain (Table t);
         failure_cases :=
           Some (FcFrame (DataFrame (columns t)
                   (bounded (n_failure_cases check)
                            (at_false (rows t) (s_values o'))))) |}, log).
Proof.
  intros Hi Hc Hb o'. cbn [postprocess]. apply multimethod_ok.
  unfold postprocess_table_rows.
  rewrite bind_unfold, self_check_init, bind_unfold.
  rewrite adjust_output by (rewrite f_index_isna_any; exact Hi).
  fold o'. rewrite bind_unfold.
  rewrite get_failure_cases_table; [reflexivity| |exact Hc|exact Hb].
  unfold o'. rewrite with_na_index by (rewrite f_index_isna_any; exact Hi).
  exact Hi.
Qed.

(** *** Failure cases of a cell mask *)

Lemma omap_failing_cons (ignore : bool) x xs :
  omap (failing_entry ignore) (x :: xs) =
  if x.2.2 || (ignore && isna x.1.2)
  then omap (failing_entry ignore) xs
  else x.1 :: omap (failing_entry ignore) xs.
Proof.
  cbn [omap list_omap]. unfold failing_entry at 1.
  destruct (x.2.2 || ignore && isna x.1.2); reflexivity.
Qed.

Lemma fuse_failing (ignore : bool) (a : series value) (o : series bool) :
  s_index o = s_index a ->
  at_false a (s_values (with_na ignore o (s_isna a)))
  = omap (failing_entry ignore) (zip a o).
Proof.
  unfold s_index. revert o.
  induction a as [|[l v] a IH]; intros [|[l' b] o] Hi;
    try discriminate Hi.
  - destruct ignore; reflexivity.
  - injection Hi as _ Hi. specialize (IH o Hi).
    destruct ignore; unfold with_na, s_isna, s_values in *;
      cbn [zip_with fmap list_fmap prod_map fst snd id] in *;
      rewrite at_false_cons, IH, omap_failing_cons; cbn [fst snd andb].
    + reflexivity.
    + rewrite orb_false_r. reflexivity.
Qed.

Lemma aligned_rows (rt : list (value * list value))
    (ro : list (value * list bool)) (n : nat) :
  ro.*1 = rt.*1 ->
  Forall (fun r => length r.2 = n) rt ->
  Forall (fun r => length r.2 = n) ro ->
  Forall2 aligned rt ro.
Proof.
  revert ro. induction rt as [|a rt IH]; intros [|b ro] Hl Ht Ho;
    try discriminate Hl; [constructor|].
  injection Hl as H1 Hl.
  apply Forall_cons in Ht as [Ha Ht]. apply Forall_cons in Ho as [Hb Ho].
  constructor; [|apply IH; assumption].
  split; [symmetry; exact H1 | congruence].
Qed.

Lemma mapM_app_Some {X Y} (f : X -> option Y) l1 l2 k1 k2 :
  mapM f l1 = Some k1 -> mapM f l2 = Some k2 ->
  mapM f (l1 ++ l2) = Some (k1 ++ k2).
Proof.
  rewrite !mapM_Some. apply Forall2_app.
Qed.

(** One column of the unstacked table and output. *)
Lemma column_spec (ignore : bool) rt ro (j : nat) (c : string) :
  Forall2 aligned rt ro ->
  s_index (column_entries ro j c) = s_index (column_entries rt j c) /\
  mapM long_of (omap (failing_entry ignore)
                  (zip (column_entries rt j c) (column_entries ro j c)))
  = Some (column_failures ignore (zip rt ro) j c).
Proof.
  induction 1 as [|[i cells] [i' cells'] rt ro [Hl Hn] _ [IH1 IH2]].
  - split; reflexivity.
  - cbn in Hl, Hn. subst i'.
    unfold column_entries, column_failures in *. cbn [zip_with omap list_omap fst snd].
    destruct (cells !! j) as [v|] eqn:Ev.
    + assert (Hb : is_Some (cells' !! j)).
      { apply lookup_lt_is_Some. rewrite <- Hn.
        eapply lookup_lt_Some, Ev. }
      destruct Hb as [b Eb]. rewrite Eb. cbn.
      split; [unfold s_index in *; cbn; f_equal; exact IH1|].
      unfold failing_entry at 1. cbn [fst snd].
      destruct (b || ignore && isna v); [exact IH2|].
      cbn. unfold s_index in *. cbn in IH2 |- *. rewrite IH2. reflexivity.
    + assert (Eb : cells' !! j = None).
      { apply lookup_ge_None. rewrite <- Hn. apply lookup_ge_None, Ev. }
      rewrite Eb. cbn. split; [exact IH1 | exact IH2].
Qed.

(** The unstacked table and output, column by column. *)
Lemma unstack_spec (ignore : bool) rt ro (cols : list string) (g : nat -> nat) :
  Forall2 aligned rt ro ->
  s_index (concat (imap (fun j => column_entries ro (g j)) cols))
  = s_index (concat (imap (fun j => column_entries rt (g j)) cols)) /\
  mapM long_of
    (omap (failing_entry ignore)
       (zip (concat (imap (fun j => column_entries rt (g j)) cols))
            (concat (imap (fun j => column_entries ro (g j)) cols))))
  = Some (concat (imap (fun j => column_failures ignore (zip rt ro) (g j)) cols)).
Proof.
  intros Hal. revert g. induction cols as [|c cols IH]; intros g.
  - split; reflexivity.
  - destruct (column_spec ignore rt ro (g 0) c Hal) as [Hc1 Hc2].
    destruct (IH (fun j => g (S j))) as [IH1 IH2].
    cbn [imap concat]. unfold compose. split.
    + unfold s_index in *. rewrite !fmap_app. f_equal; assumption.
    + rewrite zip_with_app, omap_app.
      * apply mapM_app_Some; assumption.
      * apply (f_equal length) in Hc1. unfold s_index in Hc1.
        rewrite !length_fmap in Hc1. symmetry. exact Hc1.
Qed.

Lemma same_layout_aligned t o :
  same_layout t o -> Forall2 aligned (rows t) (rows o).
Proof.
  intros (Ht & Ho & Hc & Hl).
  apply (aligned_rows _ _ (length (columns t))); [exact Hl | exact Ht |].
  unfold wf_frame in Ho. rewrite Hc in Ho. exact Ho.
Qed.

Lemma same_layout_shape t o : same_layout t o -> shape t = shape o.
Proof.
  intros (_ & _ & Hc & Hl). unfold shape. f_equal.
  - apply (f_equal length) in Hl. rewrite !length_fmap in Hl. symmetry. exact Hl.
  - rewrite Hc. reflexivity.
Qed.

Lemma unstack_index t o :
  same_layout t o -> s_index (unstack o) = s_index (unstack t).
Proof.
  intros H. pose proof (same_layout_aligned t o H) as Hal.
  destruct H as (_ & _ & Hc & _). unfold unstack. rewrite Hc.
  apply (unstack_spec false (rows t) (rows o) (columns t) (fun j => j) Hal).
Qed.

Lemma bounded_long_nil n : bounded_long n [] = [].
Proof. destruct n; [apply take_nil | reflexivity]. Qed.

(** [postprocess] on a table and a cell mask of the same layout. *)
Lemma postprocess_table_cells_spec check (t : frame value) (o : frame bool) log :
  same_layout t o ->
  let o' := with_na (ignore_na check) (unstack o) (s_isna (unstack t)) in
  postprocess (__init__ check) (Plain (Table t)) (OutFrame o) log =
  (Ok {| check_output := OutSeries o';
         check_passed := forallb id (s_values o');
         checked_object := Plain (Column (unstack t));
         failure_cases :=
           Some (FcLong (bounded_long (n_failure_cases check)
                           (long_failures (ignore_na check) t o))) |}, log).
Proof.
  intros Hl o'. pose proof (unstack_index t o Hl) as Hi.
  pose proof (same_layout_aligned t o Hl) as Hal.
  cbn [postprocess]. apply multimethod_ok. unfold postprocess_table_cells.
  case_decide as Hs; [|exfalso; apply Hs, same_layout_shape, Hl].
  cbv zeta. rewrite bind_unfold, self_check_init, bind_unfold.
  rewrite adjust_output by (rewrite s_index_isna; exact Hi).
  fold o'. rewrite bind_unfold. unfold lift at 1, s_getitem_mask.
  assert (Hi' : s_index o' = s_index (unstack t)).
  { unfold o'. rewrite with_na_index by (rewrite s_index_isna; exact Hi).
    exact Hi. }
  rewrite (mask_of_output _ _ Hi'). cbn [obind]. rewrite select_negb.
  pose proof (fuse_failing (ignore_na check) _ _ Hi) as Hf.
  fold o' in Hf. rewrite Hf. clear Hf.
  rewrite bind_unfold. unfold lift at 1, reset_index.
  assert (Hm : mapM long_of (omap (failing_entry (ignore_na check))
                               (zip (unstack t) (unstack o)))
               = Some (long_failures (ignore_na check) t o)).
  { destruct Hl as (_ & _ & Hc & _). unfold unstack, long_failures.
    rewrite Hc.
    exact (proj2 (unstack_spec (ignore_na check) (rows t) (rows o)
                    (columns t) (fun j => j) Hal)). }
  rewrite Hm. rewrite bind_unfold.
  destruct (long_failures (ignore_na check) t o) as [|x l] eqn:El.
  - rewrite ret_unfold, ret_unfold, bounded_long_nil. reflexivity.
  - rewrite bind_unfold, self_check_init, ret_unfold, ret_unfold.
    destruct (n_failure_cases check); reflexivity.
Qed.

(** *** Failure cases of a column *)

(** C4, as stated, fails: with [ignore_na] false and a bound of one
    failure case, the column [1, -1, -2] under the output [T, F, F] yields
    the failure case -1 only, not the values at all the false positions. *)
Lemma bounded_failure_cases_drop_values :
  exists r,
    postprocess (__init__ (check_at_most 1)) (Plain (Column column_neg))
                (OutSeries mask_neg) [] = (Ok r, []) /\
    ignore_na (check_at_most 1) = false /\
    failure_cases r = Some (FcSeries [(Single (VInt 1), VInt (-1))]) /\
    at_false column_neg (s_values mask_neg)
      = [(Single (VInt 1), VInt (-1)); (Single (VInt 2), VInt (-2))] /\
    failure_cases r <> Some (FcSeries (at_false column_neg (s_values mask_neg))).
Proof.
  eexists. split; [vm_compute; reflexivity|].
  repeat split; try reflexivity. discriminate.
Qed.

(** C4, amended. For every column C and every row mask O that carries the
    index of C, with [ignore_na] false: [check_passed] is the conjunction
    of the entries of O, and [failure_cases] holds the values of C at the
    positions where O is false, in their order: all of them when
    [n_failure_cases] is None, the first [n_failure_cases] of them when it
    is a count (and the labels of C are distinct). *)
Theorem column_failure_cases
    (check : BaseCheck) (c : series value) (o : series bool)
    (log : list event) :
  ignore_na check = false ->
  s_index o = s_index c ->
  bound_ok (n_failure_cases check) (s_index c) ->
  postprocess (__init__ check) (Plain (Column c)) (OutSeries o) log =
  (Ok {| check_output := OutSeries o;
         check_passed := forallb id (s_values o);
         checked_object := Plain (Column c);
         failure_cases :=
           Some (FcSeries (bounded (n_failure_cases check)
                                   (at_false c (s_values o)))) |}, log).
Proof.
  intros Hna Hi Hb.
  rewrite (postprocess_column_spec check c o log Hi Hb), Hna. reflexivity.
Qed.

(** The instance of C4 at the column [1, 2, -1, 4] under the output
    [T, T, F, T] without a bound: the check fails with the failure case
    -1. *)
Lemma column_failure_cases_witness :
  postprocess (__init__ check_positive) (Plain (Column column_four))
              (OutSeries mask_four) [] =
  (Ok {| check_output := OutSeries mask_four;
         check_passed := false;
         checked_object := Plain (Column column_four);
         failure_cases := Some (FcSeries [(Single (VInt 2), VInt (-1))]) |}, []).
Proof.
  apply (column_failure_cases check_positive column_four mask_four []);
    [reflexivity | reflexivity | exact I].
Defined.

(** *** Truncation *)

Lemma count_key_cons_ne (k k' : bool) (seen : list bool) :
  k' <> k -> count_key k (k' :: seen) = count_key k seen.
Proof.
  intros Hne. unfold count_key. rewrite filter_cons_False by exact Hne.
  reflexivity.
Qed.

(** The first row of every group survives a per-group head of at least
    one row: the keys that survive, read off by running the head on the
    keys themselves, include every key that occurs. *)
Lemma group_head_keeps_every_group (n : Z) (sizes seen : list bool)
    (keys : list (option bool)) (b : bool) :
  (1 <= n)%Z -> count_key b seen = 0 -> Some b ∈ keys ->
  Some b ∈ group_head n sizes seen keys keys.
Proof.
  intros Hn. revert seen.
  induction keys as [|[k|] keys IH]; intros seen Hs Hin.
  - inversion Hin.
  - cbn [group_head]. rewrite slice_stop_nonneg by lia.
    destruct (decide (k = b)) as [->|Hne].
    + rewrite Hs. case_decide; [left | lia].
    + apply elem_of_cons in Hin as [[= ->]|Hin]; [contradiction|].
      assert (Hrec : Some b ∈ group_head n sizes (k :: seen) keys keys).
      { apply IH; [|exact Hin]. rewrite count_key_cons_ne; assumption. }
      case_decide; [right|]; exact Hrec.
  - cbn [group_head]. apply elem_of_cons in Hin as [[=]|Hin].
    apply IH; assumption.
Qed.

Lemma elem_of_drop_duplicates_from {X} `{EqDecision X} (seen l : list X) x :
  x ∈ drop_duplicates_from seen l <-> x ∈ l /\ x ∉ seen.
Proof.
  revert seen. induction l as [|y l IH]; intros seen; cbn.
  - split; [intros H; inversion H | intros [H _]; inversion H].
  - case_decide as Hy.
    + rewrite IH, elem_of_cons. split.
      * intros [H1 H2]. split; [right|]; assumption.
      * intros [[->|H1] H2]; [contradiction|]. split; assumption.
    + rewrite elem_of_cons, IH, !elem_of_cons. split.
      * intros [->|[H1 H2]]; [split; [left; reflexivity|exact Hy]|].
        split; [right; exact H1|]. intros H3. apply H2. right. exact H3.
      * intros [[->|H1] H2]; [left; reflexivity|].
        destruct (decide (x = y)) as [->|Hne]; [left; reflexivity|].
        right. split; [exact H1|].
        intros [Heq|H3]; [contradiction | exact (H2 H3)].
Qed.

Lemma NoDup_drop_duplicates_from {X} `{EqDecision X} (seen l : list X) :
  NoDup (drop_duplicates_from seen l).
Proof.
  revert seen. induction l as [|y l IH]; intros seen; cbn.
  - constructor.
  - case_decide; [apply IH|]. constructor; [|apply IH].
    rewrite elem_of_drop_duplicates_from. intros [_ H1]. apply H1. left.
Qed.

Lemma drop_duplicates_from_length {X} `{EqDecision X} (seen l : list X) :
  length (drop_duplicates_from seen l) <= length l.
Proof.
  revert seen. induction l as [|y l IH]; intros seen; cbn; [lia|].
  case_decide; [specialize (IH seen) | specialize (IH (y :: seen))];
    cbn; lia.
Qed.

(** Rows that are already distinct lose nothing. *)
Lemma drop_duplicates_from_NoDup {X} `{EqDecision X} (seen l : list X) :
  NoDup l -> (forall x, x ∈ l -> x ∉ seen) ->
  drop_duplicates_from seen l = l.
Proof.
  revert seen. induction l as [|y l IH]; intros seen Hnd Hs; cbn;
    [reflexivity|].
  apply NoDup_cons in Hnd as [Hy Hnd].
  case_decide as Hin; [exfalso; apply (Hs y); [left|exact Hin]|].
  f_equal. apply IH; [exact Hnd|].
  intros x Hx. rewrite elem_of_cons. intros [Heq|H1].
  - subst x. contradiction.
  - apply (Hs x); [right; exact Hx | exact H1].
Qed.

Lemma head_nonneg {X} (k : Z) (l : list X) :
  (0 <= k)%Z -> head k l = take (Z.to_nat k) l.
Proof. intros Hk. unfold head. rewrite slice_stop_nonneg by exact Hk. reflexivity. Qed.

(** C5, as stated, fails: on a table with two columns of the same name
    whose two cells hold the same failing value there are two failure
    cases untruncated, and with a bound of five the returned failure cases
    are one, not min(5, 2). *)
Lemma duplicates_shorten_bounded_failure_cases :
  exists r r0,
    postprocess (__init__ (check_at_most 5)) (Plain (Table table_aa))
                (OutFrame cells_aa) [] = (Ok r, []) /\
    postprocess (__init__ (unbounded (check_at_most 5))) (Plain (Table table_aa))
                (OutFrame cells_aa) [] = (Ok r0, []) /\
    failure_count r0 = 2 /\
    failure_count r = 1 /\
    failure_count r <> Nat.min (Z.to_nat 5) (failure_count r0).
Proof.
  eexists. eexists. split; [vm_compute; reflexivity|].
  split; [vm_compute; reflexivity|].
  repeat split; try reflexivity. discriminate.
Qed.

(** C5, amended. For every check with [n_failure_cases] a count k >= 0:
    on a column or a table (with a column) under a row mask that carries
    its duplicate-free index, the returned failure cases are exactly
    min(k, m) where m is their number without the bound; on a table under
    a cell mask of the same layout they are the first k of the distinct
    long-form failure cases, min(k, d) of them with d <= m the number of
    distinct ones, hence min(k, m) when no two of them are equal; and a
    per-group head of k >= 1 rows keeps a row of every group that has
    one. *)
Theorem truncation_law (check : BaseCheck) (k : Z) (log : list event) :
  n_failure_cases check = Some k -> (0 <= k)%Z ->
  (forall (c : series value) (o : series bool),
     s_index o = s_index c -> NoDup (s_index c) ->
     exists r r0,
       postprocess (__init__ check) (Plain (Column c)) (OutSeries o) log
         = (Ok r, log) /\
       postprocess (__init__ (unbounded check)) (Plain (Column c))
                   (OutSeries o) log = (Ok r0, log) /\
       failure_count r = Nat.min (Z.to_nat k) (failure_count r0)) /\
  (forall (t : frame value) (o : series bool),
     s_index o = f_index t -> NoDup (f_index t) -> columns t <> [] ->
     exists r r0,
       postprocess (__init__ check) (Plain (Table t)) (OutSeries o) log
         = (Ok r, log) /\
       postprocess (__init__ (unbounded check)) (Plain (Table t))
                   (OutSeries o) log = (Ok r0, log) /\
       failure_count r = Nat.min (Z.to_nat k) (failure_count r0)) /\
  (forall (t : frame value) (o : frame bool),
     same_layout t o ->
     exists r r0 l0,
       postprocess (__init__ check) (Plain (Table t)) (OutFrame o) log
         = (Ok r, log) /\
       postprocess (__init__ (unbounded check)) (Plain (Table t))
                   (OutFrame o) log = (Ok r0, log) /\
       failure_cases r0 = Some (FcLong l0) /\
       failure_cases r
         = Some (FcLong (take (Z.to_nat k) (drop_duplicates l0))) /\
       failure_count r = Nat.min (Z.to_nat k) (length (drop_duplicates l0)) /\
       length (drop_duplicates l0) <= failure_count r0 /\
       (NoDup l0 ->
        failure_count r = Nat.min (Z.to_nat k) (failure_count r0))) /\
  (forall (keys : list (option bool)) (b : bool),
     (1 <= k)%Z -> Some b ∈ keys ->
     Some b ∈ group_head k (omap id keys) [] keys keys).
Proof.
  intros Hn Hk. repeat split.
  - intros c o Hi Hnd. eexists. eexists.
    split; [apply postprocess_column_spec;
            [exact Hi | rewrite Hn; split; assumption]|].
    split; [apply postprocess_column_spec; [exact Hi | exact I]|].
    unfold failure_count. cbn [failure_cases unbounded ignore_na n_failure_cases].
    rewrite Hn. cbn [bounded]. apply length_take.
  - intros t o Hi Hnd Hc. eexists. eexists.
    split; [apply postprocess_table_rows_spec;
            [exact Hi | exact Hc | rewrite Hn; split; assumption]|].
    split; [apply postprocess_table_rows_spec; [exact Hi | exact Hc | exact I]|].
    unfold failure_count.
    cbn [failure_cases unbounded ignore_na n_failure_cases rows].
    rewrite Hn. cbn [bounded]. apply length_take.
  - intros t o Hl.
    exists {| check_output :=
                OutSeries (with_na (ignore_na check) (unstack o)
                                   (s_isna (unstack t)));
              check_passed :=
                forallb id (s_values (with_na (ignore_na check) (unstack o)
                                              (s_isna (unstack t))));
              checked_object := Plain (Column (unstack t));
              failure_cases :=
                Some (FcLong (bounded_long (n_failure_cases check)
                                (long_failures (ignore_na check) t o))) |}.
    eexists. exists (long_failures (ignore_na check) t o).
    split; [apply postprocess_table_cells_spec; exact Hl|].
    split; [apply (postprocess_table_cells_spec (unbounded check)); exact Hl|].
    unfold failure_count.
    cbn [failure_cases unbounded ignore_na n_failure_cases bounded_long].
    rewrite Hn. cbn [bounded_long]. rewrite head_nonneg by exact Hk.
    repeat split.
    + apply length_take.
    + apply drop_duplicates_from_length.
    + intros Hnd. unfold drop_duplicates.
      rewrite drop_duplicates_from_NoDup; [apply length_take | exact Hnd |].
      intros x _ Hx. inversion Hx.
  - intros keys b Hk1 Hin.
    apply group_head_keeps_every_group; [exact Hk1 | reflexivity | exact Hin].
Qed.

(** The instance of C5 at the column [1, -1, -2] under the output
    [T, F, F] with a bound of one: one failure case of the two. *)
Lemma truncation_law_witness :
  exists r r0,
    postprocess (__init__ (check_at_most 1)) (Plain (Column column_neg))
                (OutSeries mask_neg) [] = (Ok r, []) /\
    postprocess (__init__ (unbounded (check_at_most 1)))
                (Plain (Column column_neg)) (OutSeries mask_neg) []
      = (Ok r0, []) /\
    failure_count r = Nat.min (Z.to_nat 1) (failure_count r0).
Proof.
  destruct (truncation_law (check_at_most 1) 1 [] eq_refl ltac:(lia))
    as (Hcol & _).
  apply (Hcol column_neg mask_neg); [reflexivity|].
  apply (bool_decide_unpack _). vm_compute. exact I.
Defined.

(** *** The shape of the check output *)









(** *** Failure cases of a table under a cell mask *)

Lemma elem_of_concat {X} (x : X) (ls : list (list X)) :
  x ∈ concat ls <-> exists l, l ∈ ls /\ x ∈ l.
Proof.
  induction ls as [|l ls IH]; cbn.
  - split; [intros H; inversion H | intros (l & H & _); inversion H].
  - rewrite elem_of_app, IH. split.
    + intros [H|(l' & H1 & H2)].
      * exists l. split; [left | exact H].
      * exists l'. split; [right; exact H1 | exact H2].
    + intros (l' & H1 & H2). apply elem_of_cons in H1 as [->|H1].
      * left. exact H2.
      * right. exists l'. split; assumption.
Qed.

(** What the long-form failure cases are: an entry (column, row, value)
    for every cell of the table, in a column and a row of it, that holds
    the value and whose output is false, or under [ignore] false and the
    value not missing. *)
Lemma elem_of_long_failures (ignore : bool) (t : frame value) (o : frame bool)
    (x : long_row) :
  x ∈ long_failures ignore t o <->
  exists (j : nat) (rt : value * list value) (ro : value * list bool) (b : bool),
    columns t !! j = Some (column x) /\
    (rt, ro) ∈ zip (rows t) (rows o) /\
    rt.1 = index x /\
    rt.2 !! j = Some (failure_case x) /\
    ro.2 !! j = Some b /\
    b || (ignore && isna (failure_case x)) = false.
Proof.
  unfold long_failures. rewrite elem_of_concat. split.
  - intros (l & Hl & Hx).
    apply elem_of_lookup_imap in Hl as (j & c & -> & Hc).
    unfold column_failures in Hx.
    apply list_elem_of_omap in Hx as ([rt ro] & Hin & Hm). cbn [fst snd] in Hm.
    destruct (rt.2 !! j) as [v|] eqn:Ev; [|discriminate Hm].
    destruct (ro.2 !! j) as [b|] eqn:Eb; [|discriminate Hm].
    destruct (b || ignore && isna v) eqn:Ef; [discriminate Hm|].
    injection Hm as <-. cbn.
    exists j, rt, ro, b. repeat split; assumption.
  - intros (j & rt & ro & b & Hc & Hin & Hi & Hv & Hb & Hf).
    exists (column_failures ignore (zip (rows t) (rows o)) j (column x)).
    split; [apply elem_of_lookup_imap; exists j, (column x); split;
            [reflexivity | exact Hc]|].
    unfold column_failures. apply list_elem_of_omap.
    exists (rt, ro). split; [exact Hin|]. cbn [fst snd].
    rewrite Hv, Hb, Hf, Hi. destruct x; reflexivity.
Qed.

Lemma NoDup_head {X} (k : Z) (l : list X) : NoDup l -> NoDup (head k l).
Proof.
  intros Hnd. unfold head. eapply sublist_NoDup; [exact Hnd|].
  apply sublist_take.
Qed.

Lemma elem_of_head {X} (k : Z) (l : list X) x : x ∈ head k l -> x ∈ l.
Proof.
  unfold head. intros (i & Hi & _)%elem_of_take.
  apply list_elem_of_lookup. exists i. exact Hi.
Qed.

(** C7, as stated, fails: without a bound no duplicate is removed. On the
    table with two columns of the same name whose two cells hold the same
    failing value, the returned failure cases hold the same (column, row,
    value) entry twice. *)
Lemma unbounded_failure_cases_keep_duplicates :
  exists r l,
    postprocess (__init__ check_positive) (Plain (Table table_aa))
                (OutFrame cells_aa) [] = (Ok r, []) /\
    n_failure_cases check_positive = None /\
    failure_cases r = Some (FcLong l) /\
    l = [LongRow "a" (VInt 0) (VInt (-1)); LongRow "a" (VInt 0) (VInt (-1))] /\
    ~ NoDup l.
Proof.
  eexists. eexists. split; [vm_compute; reflexivity|].
  split; [reflexivity|]. split; [reflexivity|]. split; [reflexivity|].
  intros Hnd. apply NoDup_cons in Hnd as [Hnotin _]. apply Hnotin. left.
Qed.

(** C7, amended. For every table and per-cell output of the same layout,
    the returned failure cases are the long-form (column, row, value)
    entries of the cells whose output, after the [ignore_na] adjustment,
    is false, column after column: all of them, duplicates included, when
    [n_failure_cases] is None; and when it is set, the first
    [n_failure_cases] of their first occurrences, which are pairwise
    distinct. *)
Theorem cell_failure_cases
    (check : BaseCheck) (t : frame value) (o : frame bool) (log : list event) :
  same_layout t o ->
  exists r l,
    postprocess (__init__ check) (Plain (Table t)) (OutFrame o) log
      = (Ok r, log) /\
    failure_cases r = Some (FcLong l) /\
    (forall x, x ∈ long_failures (ignore_na check) t o <->
       exists j rt ro b,
         columns t !! j = Some (column x) /\
         (rt, ro) ∈ zip (rows t) (rows o) /\
         rt.1 = index x /\
         rt.2 !! j = Some (failure_case x) /\
         ro.2 !! j = Some b /\
         b || (ignore_na check && isna (failure_case x)) = false) /\
    match n_failure_cases check with
    | None => l = long_failures (ignore_na check) t o
    | Some k =>
        l = head k (drop_duplicates (long_failures (ignore_na check) t o)) /\
        NoDup l /\
        (forall x, x ∈ l -> x ∈ long_failures (ignore_na check) t o) /\
        (forall x, x ∈ drop_duplicates (long_failures (ignore_na check) t o)
                   <-> x ∈ long_failures (ignore_na check) t o)
    end.
Proof.
  intros Hl. eexists. eexists.
  split; [apply postprocess_table_cells_spec; exact Hl|].
  split; [reflexivity|].
  split; [intros x; apply elem_of_long_failures|].
  assert (Hd : forall x,
    x ∈ drop_duplicates (long_failures (ignore_na check) t o)
    <-> x ∈ long_failures (ignore_na check) t o).
  { intros x. unfold drop_duplicates.
    rewrite elem_of_drop_duplicates_from. split; [tauto|].
    intros H. split; [exact H|]. intros H0. inversion H0. }
  destruct (n_failure_cases check) as [k|]; cbn [bounded_long];
    [|reflexivity].
  split; [reflexivity|].
  split; [apply NoDup_head, NoDup_drop_duplicates_from|].
  split; [|exact Hd].
  intros x Hx. apply Hd. eapply elem_of_head, Hx.
Qed.

(** The instance of C7 at the table with columns a = [1, -1, 2] and
    b = [3, 4, -2] under the per-cell output of "value > 0": the failure
    cases (a, 1, -1) and (b, 2, -2). *)
Lemma cell_failure_cases_witness :
  exists r,
    postprocess (__init__ check_positive) (Plain (Table table_ab))
                (OutFrame cells_ab) [] = (Ok r, []) /\
    failure_cases r
    = Some (FcLong [LongRow "a" (VInt 1) (VInt (-1));
                    LongRow "b" (VInt 2) (VInt (-2))]).
Proof.
  assert (Hl : same_layout table_ab cells_ab).
  { repeat split; try reflexivity; repeat constructor. }
  destruct (cell_failure_cases check_positive table_ab cells_ab [] Hl)
    as (r & l & Hr & Hf & _ & Hn).
  exists r. split; [exact Hr|]. rewrite Hf. cbn in Hn. rewrite Hn.
  reflexivity.
Defined.

(** ** Further properties of the backend *)

(** *** [_format_groupby_input] *)

Lemma dict_fold_notin (pairs : groupby_object) (d : gmap value container)
    (k : value) :
  k ∉ pairs.*1 ->
  foldl (fun d kv => <[kv.1 := kv.2]> d) d pairs !! k = d !! k.
Proof.
  revert d. induction pairs as [|[k' g'] pairs IH]; intros d Hk; [reflexivity|].
  cbn in *. rewrite not_elem_of_cons in Hk. destruct Hk as [Hne Hk].
  rewrite (IH _ Hk). apply lookup_insert_ne. congruence.
Qed.

Lemma dict_fold_lookup (pairs : groupby_object) (d : gmap value container)
    (k : value) (g : container) :
  foldl (fun d kv => <[kv.1 := kv.2]> d) d pairs !! k = Some g ->
  (k, g) ∈ pairs \/ d !! k = Some g.
Proof.
  revert d. induction pairs as [|[k' g'] pairs IH]; intros d H.
  - right. exact H.
  - cbn in H. apply IH in H as [H|H].
    + left. right. exact H.
    + destruct (decide (k' = k)) as [->|Hne].
      * rewrite lookup_insert_eq in H. injection H as ->. left. left.
      * rewrite lookup_insert_ne in H by exact Hne. right. exact H.
Qed.

Lemma dict_fold_NoDup (pairs : groupby_object) (d : gmap value container)
    (k : value) (g : container) :
  NoDup pairs.*1 -> (k, g) ∈ pairs ->
  foldl (fun d kv => <[kv.1 := kv.2]> d) d pairs !! k = Some g.
Proof.
  revert d. induction pairs as [|[k' g'] pairs IH]; intros d Hnd Hin.
  - inversion Hin.
  - cbn in Hnd. apply NoDup_cons in Hnd as [Hk' Hnd].
    apply elem_of_cons in Hin as [[= <- <-]|Hin].
    + cbn. rewrite dict_fold_notin by exact Hk'. apply lookup_insert_eq.
    + cbn. apply IH; assumption.
Qed.

Lemma dict_fold_dom (pairs : groupby_object) (d : gmap value container) :
  dom (foldl (fun d kv => <[kv.1 := kv.2]> d) d pairs)
  = list_to_set pairs.*1 ∪ dom d.
Proof.
  revert d. induction pairs as [|[k g] pairs IH]; intros d; cbn.
  - apply set_eq. intros x. set_unfold. tauto.
  - rewrite IH, dom_insert_L. apply set_eq. intros x. set_unfold. tauto.
Qed.

(** Restricting the pairs to the requested keys restricts the mapping. *)
Lemma dict_fold_filter (keys : list value) (pairs : groupby_object)
    (d d' : gmap value container) :
  (forall k, d' !! k = if decide (k ∈ keys) then d !! k else None) ->
  forall k,
    foldl (fun d kv => <[kv.1 := kv.2]> d) d'
          (filter (fun kg : value * container => kg.1 ∈ keys) pairs) !! k
    = if decide (k ∈ keys)
      then foldl (fun d kv => <[kv.1 := kv.2]> d) d pairs !! k
      else None.
Proof.
  revert d d'. induction pairs as [|[k1 g1] pairs IH]; intros d d' Hinv k.
  - apply Hinv.
  - destruct (decide (k1 ∈ keys)) as [Hin|Hout].
    + rewrite filter_cons_True by exact Hin. cbn. apply IH.
      intros k0. destruct (decide (k1 = k0)) as [->|Hne].
      * rewrite !lookup_insert_eq. case_decide; [reflexivity|contradiction].
      * rewrite !lookup_insert_ne by exact Hne. apply Hinv.
    + rewrite filter_cons_False by exact Hout. cbn. apply IH.
      intros k0. rewrite Hinv. case_decide as Hk0; [|reflexivity].
      rewrite lookup_insert_ne; [reflexivity|]. intros ->. contradiction.
Qed.

Lemma invalid_keys_filter (gb : groupby_object) (keys : list value) :
  filter (fun g => g ∉ (list_to_set gb.*1 : gset value)) keys
  = invalid_keys gb keys.
Proof.
  unfold invalid_keys. induction keys as [|g keys IH]; [reflexivity|].
  destruct (decide (g ∈ gb.*1)) as [Hin|Hout].
  - rewrite !filter_cons_False; [exact IH | tauto |].
    rewrite elem_of_list_to_set. tauto.
  - rewrite !filter_cons_True; [f_equal; exact IH | exact Hout |].
    rewrite elem_of_list_to_set. exact Hout.
Qed.

(** X1. Without an allow-list, [_format_groupby_input] always returns a
    mapping; its keys are exactly the group keys of the groupby object,
    every entry is a group the object yielded under that key, and when the
    group keys are distinct the mapping holds exactly the yielded pairs. *)
Theorem format_groupby_input_all_groups (gb : groupby_object) :
  exists d,
    _format_groupby_input gb None = Ok d /\
    dom d = list_to_set gb.*1 /\
    (forall k g, d !! k = Some g -> (k, g) ∈ gb) /\
    (NoDup gb.*1 -> forall k g, d !! k = Some g <-> (k, g) ∈ gb).
Proof.
  exists (dict gb). split; [reflexivity|]. unfold dict. split.
  - rewrite dict_fold_dom, dom_empty_L. apply set_eq. intros x.
    set_unfold. tauto.
  - split.
    + intros k g H. apply dict_fold_lookup in H as [H|H]; [exact H|].
      rewrite lookup_empty in H. discriminate H.
    + intros Hnd k g. split.
      * intros H. apply dict_fold_lookup in H as [H|H]; [exact H|].
        rewrite lookup_empty in H. discriminate H.
      * apply dict_fold_NoDup, Hnd.
Qed.

(** X2. With an allow-list, [_format_groupby_input] either returns a
    mapping, and then every requested key is a group key and the mapping
    is the mapping of all groups restricted to the requested keys; or it
    raises the KeyError whose message carries the requested keys that are
    no group keys, in the order requested and at least one, and the set
    of group keys. It has no other outcome. *)
Theorem format_groupby_input_allow_list (gb : groupby_object)
    (keys : list value) :
  match _format_groupby_input gb (Some keys) with
  | Ok d =>
      (forall g, g ∈ keys -> g ∈ gb.*1) /\
      forall k, d !! k = if decide (k ∈ keys) then dict gb !! k else None
  | Raise e =>
      e = KeyError (invalid_groups_message gb keys) /\
      invalid_keys gb keys <> [] /\
      forall g, g ∈ invalid_keys gb keys <-> g ∈ keys /\ g ∉ gb.*1
  | Unmodelled => False
  end.
Proof.
  unfold _format_groupby_input. rewrite invalid_keys_filter.
  destruct (invalid_keys gb keys) as [|x l] eqn:E.
  - split.
    + intros g Hg. destruct (decide (g ∈ gb.*1)) as [Hin|Hout]; [exact Hin|].
      assert (Hx : g ∈ invalid_keys gb keys).
      { unfold invalid_keys. apply list_elem_of_filter. split; assumption. }
      rewrite E in Hx. inversion Hx.
    + intros k. unfold dict. apply dict_fold_filter.
      intros k0. rewrite lookup_empty. case_decide; reflexivity.
  - split; [unfold invalid_groups_message; rewrite E; reflexivity|].
    split; [discriminate|].
    intros g. rewrite <- E. unfold invalid_keys.
    rewrite list_elem_of_filter. tauto.
Qed.

(** *** Which steps call the predicate *)

Lemma silent_ret {A} (a : A) : silent (mret a).
Proof. intros log. reflexivity. Qed.

Lemma silent_lift {A} (o : outcome A) : silent (lift o).
Proof. intros log. reflexivity. Qed.

Lemma silent_raise {A} (e : exn) : silent (raise (A := A) e).
Proof. intros log. reflexivity. Qed.

Lemma silent_bind {A B} (m : M A) (k : A -> M B) :
  silent m -> (forall a, silent (k a)) -> silent (m ≫= k).
Proof.
  intros Hm Hk log. rewrite bind_unfold. specialize (Hm log).
  destruct (m log) as [[a|e|] log1]; cbn in Hm; subst log1;
    [apply Hk | reflexivity | reflexivity].
Qed.

Lemma silent_getattr self name : silent (getattr self name).
Proof.
  unfold getattr. destruct (self !! name); [apply silent_ret|].
  case_decide; [apply silent_ret|].
  destruct (String.prefix "_" name); [apply silent_lift | apply silent_raise].
Qed.

Lemma silent_multimethod {A} fn (body : M A) :
  silent body -> silent (multimethod fn body).
Proof. intros H log. rewrite multimethod_log. apply H. Qed.

Lemma silent_self_check self : silent (self_check self).
Proof.
  unfold self_check. apply silent_bind; [apply silent_getattr|].
  intros []; first [apply silent_ret | apply silent_lift].
Qed.

Lemma silent_self_check_fn self : silent (self_check_fn self).
Proof.
  unfold self_check_fn. apply silent_bind; [apply silent_getattr|].
  intros []; first [apply silent_ret | apply silent_lift].
Qed.

Lemma silent_self_groups self : silent (self_groups self).
Proof.
  unfold self_groups. apply silent_bind; [apply silent_getattr|].
  intros []; first [apply silent_ret | apply silent_lift].
Qed.

Ltac silence :=
  repeat first
    [ apply silent_ret | apply silent_lift | apply silent_raise
    | apply silent_self_check | apply silent_self_check_fn
    | apply silent_self_groups
    | apply silent_bind; [|intros ?]
    | match goal with
      | |- silent (if ?b then _ else _) => destruct b
      | |- silent (match ?x with _ => _ end) => destruct x
      end ].

Lemma silent_get_failure_cases self obj o :
  silent (_get_series_failure_cases self obj o).
Proof. unfold _get_series_failure_cases. destruct obj; silence. Qed.

(** [postprocess] makes no call: it leaves the log as it found it. *)
Lemma silent_postprocess self obj out : silent (postprocess self obj out).
Proof.
  destruct out as [b|b|o|o|ty], obj as [[s|f]|d]; cbn [postprocess];
    apply silent_multimethod;
    try apply silent_ret; try apply silent_raise.
  - unfold postprocess_column. silence.
  - unfold postprocess_table_rows. silence.
  - unfold postprocess_table_cells. cbv zeta. silence.
Qed.

Lemma silent_predicate_free {A} (m : M A) : silent m -> predicate_free m.
Proof. intros H log. rewrite H. reflexivity. Qed.

Lemma predicate_free_bind {A B} (m : M A) (k : A -> M B) :
  predicate_free m -> (forall a, predicate_free (k a)) ->
  predicate_free (m ≫= k).
Proof.
  intros Hm Hk log. rewrite bind_unfold. specialize (Hm log).
  destruct (m log) as [[a|e|] log1]; cbn in Hm;
    [rewrite Hk; exact Hm | exact Hm | exact Hm].
Qed.

Lemma predicate_free_tell (e : event) :
  is_check_fn e = false -> predicate_free (tell e).
Proof.
  intros He log. unfold tell. cbn [snd].
  rewrite predicate_calls_app. unfold predicate_calls at 2. cbn.
  rewrite He. cbn. lia.
Qed.

Lemma predicate_free_groupby pd_groupby self col :
  predicate_free (groupby pd_groupby self col).
Proof.
  unfold groupby. apply predicate_free_bind.
  - apply silent_predicate_free, silent_self_check.
  - intros c. destruct (Checks.groupby c) as [[name|fn]|].
    + apply silent_predicate_free, silent_lift.
    + apply predicate_free_bind; [apply predicate_free_tell; reflexivity|].
      intros _. apply silent_predicate_free, silent_lift.
    + apply silent_predicate_free, silent_raise.
Qed.

Lemma predicate_free_multimethod {A} fn (body : M A) :
  predicate_free body -> predicate_free (multimethod fn body).
Proof. intros H log. rewrite multimethod_log. apply H. Qed.

Lemma predicate_free_grouped pd_groupby self col :
  predicate_free (preprocess_grouped_input pd_groupby self col).
Proof.
  unfold preprocess_grouped_input.
  apply predicate_free_bind; [apply predicate_free_groupby|]. intros g.
  apply predicate_free_bind;
    [apply silent_predicate_free, silent_self_groups|]. intros groups.
  apply predicate_free_bind; [apply predicate_free_tell; reflexivity|].
  intros _. apply silent_predicate_free. silence.
Qed.

Lemma predicate_free_preprocess pd_groupby self obj key :
  predicate_free (preprocess pd_groupby self obj key).
Proof.
  unfold preprocess. destruct obj as [s|f], key as [k|].
  - apply silent_predicate_free, silent_raise.
  - apply predicate_free_multimethod, silent_predicate_free, silent_ret.
  - apply predicate_free_multimethod. unfold preprocess_frame_key.
    apply predicate_free_bind; [apply silent_predicate_free, silent_lift|].
    intros col. apply predicate_free_bind;
      [apply silent_predicate_free, silent_self_check|].
    intros c. destruct (Checks.groupby c);
      [apply predicate_free_grouped | apply silent_predicate_free, silent_ret].
  - apply predicate_free_multimethod. unfold preprocess_frame.
    apply predicate_free_bind;
      [apply silent_predicate_free, silent_self_check|].
    intros c. destruct (Checks.groupby c);
      [apply predicate_free_grouped | apply silent_predicate_free, silent_ret].
Qed.

Lemma silent_preprocess_ungrouped pd_groupby check obj key :
  silent (preprocess pd_groupby (__init__ (ungrouped check)) obj key).
Proof.
  intros log. unfold preprocess. destruct obj as [s|f], key as [k|];
    try reflexivity.
  rewrite multimethod_log. unfold preprocess_frame_key.
  rewrite bind_unfold. unfold lift at 1.
  destruct (f_getitem f k); reflexivity.
Qed.

(** X3. Preprocessing never calls the predicate, whatever the backend
    instance, the object and the key; and for a check without grouping it
    makes no call at all: neither a grouping function nor
    [_format_groupby_input] is entered, and the log is left as it was. *)
Theorem preprocess_makes_no_predicate_call
    (pd_groupby : container -> string -> outcome groupby_object)
    (self : gmap string attr) (check : BaseCheck) (obj : container)
    (key : option string) (log : list event) :
  predicate_calls (preprocess pd_groupby self obj key log).2
    = predicate_calls log /\
  (preprocess pd_groupby (__init__ (ungrouped check)) obj key log).2 = log.
Proof.
  split; [apply predicate_free_preprocess | apply silent_preprocess_ungrouped].
Qed.

(** *** Element-wise application *)

Lemma call_unfold fn a log : call fn a log = (fn a, log ++ [EvCheckFn a]).
Proof. unfold call. rewrite bind_unfold. reflexivity. Qed.

Lemma map_fn_cons fn l a args log :
  map_fn fn ((l, a) :: args) log =
  match fn a with
  | Ok o =>
      match map_fn fn args (log ++ [EvCheckFn a]) with
      | (Ok r, log') => (Ok ((l, o) :: r), log')
      | (Raise e, log') => (Raise e, log')
      | (Unmodelled, log') => (Unmodelled, log')
      end
  | Raise e => (Raise e, log ++ [EvCheckFn a])
  | Unmodelled => (Unmodelled, log ++ [EvCheckFn a])
  end.
Proof.
  cbn [map_fn]. rewrite bind_unfold, call_unfold.
  destruct (fn a); reflexivity.
Qed.

(** A pass in which every call returns. *)
Lemma map_fn_map {X} (mk : X -> label * pyarg) (out : X -> output)
    (fn : pyarg -> outcome output) (xs : list X) log :
  (forall x, x ∈ xs -> fn (mk x).2 = Ok (out x)) ->
  map_fn fn (mk <$> xs) log =
  (Ok ((fun x => ((mk x).1, out x)) <$> xs),
   log ++ ((fun x => EvCheckFn (mk x).2) <$> xs)).
Proof.
  revert log. induction xs as [|x xs IH]; intros log Hfn.
  - cbn. rewrite app_nil_r. reflexivity.
  - rewrite fmap_cons. destruct (mk x) as [l a] eqn:Emk.
    rewrite map_fn_cons.
    pose proof (Hfn x ltac:(left)) as Hx. rewrite Emk in Hx. cbn in Hx.
    rewrite Hx, IH by (intros y Hy; apply Hfn; right; exact Hy).
    rewrite !fmap_cons, Emk, <- app_assoc. reflexivity.
Qed.

(** A pass that meets an exception. *)
Lemma map_fn_map_raise {X} (mk : X -> label * pyarg)
    (fn : pyarg -> outcome output) (xs1 : list X) (x : X) (xs2 : list X)
    (e : exn) log :
  (forall y, y ∈ xs1 -> is_ok (fn (mk y).2) = true) ->
  fn (mk x).2 = Raise e ->
  map_fn fn (mk <$> (xs1 ++ x :: xs2)) log =
  (Raise e,
   log ++ ((fun y => EvCheckFn (mk y).2) <$> xs1) ++ [EvCheckFn (mk x).2]).
Proof.
  intros Hok Hx. revert log. induction xs1 as [|y xs1 IH]; intros log.
  - cbn [app fmap list_fmap]. destruct (mk x) as [l a] eqn:Emk.
    rewrite map_fn_cons. cbn in Hx. rewrite Hx. reflexivity.
  - cbn [app]. rewrite fmap_cons. destruct (mk y) as [l a] eqn:Emk.
    rewrite map_fn_cons.
    pose proof (Hok y ltac:(left)) as Hy. rewrite Emk in Hy. cbn in Hy.
    destruct (fn a) as [o| |]; try discriminate Hy.
    rewrite IH by (intros z Hz; apply Hok; right; exact Hz).
    rewrite !fmap_cons, Emk. cbn [snd]. rewrite <- !app_assoc. reflexivity.
Qed.

(** A pass calls the predicate at most once per argument. *)
Lemma map_fn_calls fn args log :
  predicate_calls log <= predicate_calls (map_fn fn args log).2
  <= predicate_calls log + length args.
Proof.
  revert log. induction args as [|[l a] args IH]; intros log.
  - cbn [map_fn]. rewrite ret_unfold. cbn [snd length]. lia.
  - rewrite map_fn_cons.
    assert (Hc : predicate_calls (log ++ [EvCheckFn a])
                 = predicate_calls log + 1).
    { rewrite predicate_calls_app. reflexivity. }
    specialize (IH (log ++ [EvCheckFn a])).
    destruct (fn a); cbn [snd length]; [|lia|lia].
    destruct (map_fn fn args (log ++ [EvCheckFn a])) as [[r|e|] log'];
      cbn [snd] in *; lia.
Qed.

Lemma bool_series_bools (bs : series bool) log :
  bool_series (prod_map id OutBool <$> bs) log = (Ok (OutSeries bs), log).
Proof.
  unfold bool_series.
  assert (H : mapM (fun x : label * output =>
                      match x.2 with
                      | OutBool b | OutNumpyBool b => Some (x.1, b)
                      | _ => None
                      end)
                   (prod_map id OutBool <$> bs) = Some bs).
  { apply mapM_Some. induction bs as [|[l b] bs IH]; constructor;
      [reflexivity | exact IH]. }
  rewrite H. reflexivity.
Qed.

Lemma silent_bool_series r : silent (bool_series r).
Proof. unfold bool_series. silence. Qed.

Lemma scalar_calls_count (s : series value) log :
  predicate_calls (log ++ scalar_calls s) = predicate_calls log + length s.
Proof.
  rewrite predicate_calls_app. f_equal. unfold scalar_calls, predicate_calls.
  induction s as [|r s IH]; cbn; [reflexivity|]. f_equal. exact IH.
Qed.

Lemma apply_column_elements check (s : series value) (p : value -> bool) log :
  element_wise check = true ->
  (forall v, v ∈ s_values s ->
     _check_fn check (ArgScalar v) (_check_kwargs check) = Ok (OutBool (p v))) ->
  apply (__init__ check) (Plain (Column s)) log =
  (Ok (OutSeries (prod_map id p <$> s)), log ++ scalar_calls s).
Proof.
  intros He Hp. cbn [apply]. apply multimethod_ok. unfold apply_series.
  rewrite bind_unfold, self_check_init, bind_unfold, self_check_fn_init, He.
  rewrite bind_unfold.
  rewrite (map_fn_map (prod_map id ArgScalar) (fun r => OutBool (p r.2))).
  - change ((fun x : label * value =>
              ((prod_map id ArgScalar x).1, OutBool (p x.2))) <$> s)
      with ((fun x : label * value => (x.1, OutBool (p x.2))) <$> s).
    assert (Hm : (fun x : label * value => (x.1, OutBool (p x.2))) <$> s
                 = prod_map id OutBool <$> (prod_map id p <$> s)).
    { rewrite <- list_fmap_compose. reflexivity. }
    rewrite Hm, bool_series_bools. reflexivity.
  - intros r Hr. apply Hp. unfold s_values.
    apply list_elem_of_fmap. exists r. split; [reflexivity | exact Hr].
Qed.

(** X4. Element-wise application to a column whose values the predicate
    maps to Python booleans calls the predicate exactly once per row, in
    row order and on nothing else, and returns the Series of the results
    under the index of the column. *)
Theorem apply_element_wise_column
    (check : BaseCheck) (s : series value) (p : value -> bool)
    (log : list event) :
  element_wise check = true ->
  (forall v, v ∈ s_values s ->
     _check_fn check (ArgScalar v) (_check_kwargs check) = Ok (OutBool (p v))) ->
  apply (__init__ check) (Plain (Column s)) log =
    (Ok (OutSeries (prod_map id p <$> s)), log ++ scalar_calls s) /\
  s_index (prod_map id p <$> s) = s_index s /\
  predicate_calls (log ++ scalar_calls s) = predicate_calls log + length s.
Proof.
  intros He Hp. split; [apply apply_column_elements; assumption|].
  split; [|apply scalar_calls_count].
  unfold s_index. rewrite <- list_fmap_compose. reflexivity.
Qed.

(** X5. Element-wise application to a column stops at the first value on
    which the predicate raises: the values before it were visited in
    order, no value after it is visited, and the exception leaves [apply]
    as multimethod passes it on: unchanged when it is no TypeError, and as
    the DispatchError raised from it, which keeps it as its cause, when it
    is one. *)
Theorem apply_element_wise_stops_at_exception
    (check : BaseCheck) (s1 : series value) (l : label) (v : value)
    (s2 : series value) (e : exn) (log : list event) :
  element_wise check = true ->
  (forall v', v' ∈ s_values s1 ->
     is_ok (_check_fn check (ArgScalar v') (_check_kwargs check)) = true) ->
  _check_fn check (ArgScalar v) (_check_kwargs check) = Raise e ->
  apply (__init__ check) (Plain (Column (s1 ++ (l, v) :: s2))) log =
  (Raise (if is_type_error e then DispatchErrorFrom "apply" e else e),
   log ++ scalar_calls s1 ++ [EvCheckFn (ArgScalar v)]).
Proof.
  intros He Hok Hv. cbn [apply].
  apply (multimethod_eq _ _ _ (Raise e)). unfold apply_series.
  rewrite bind_unfold, self_check_init, bind_unfold, self_check_fn_init, He.
  rewrite bind_unfold.
  rewrite (map_fn_map_raise (prod_map id ArgScalar) _ s1 (l, v) s2 e);
    [reflexivity | | exact Hv].
  intros r Hr. apply Hok. unfold s_values.
  apply list_elem_of_fmap. exists r. split; [reflexivity | exact Hr].
Qed.

(** X6. Element-wise application to a table with rows and columns whose
    rows the predicate maps to Python booleans calls the predicate exactly
    once per row, in row order, each time on the row with the column
    names of the table, and returns the Series of the results under the
    row index of the table. *)
Theorem apply_element_wise_table
    (check : BaseCheck) (f : frame value) (p : value * list value -> bool)
    (log : list event) :
  element_wise check = true ->
  f_empty f = false ->
  (forall r, r ∈ rows f ->
     _check_fn check (ArgRow (columns f) r.1 r.2) (_check_kwargs check)
     = Ok (OutBool (p r))) ->
  apply (__init__ check) (Plain (Table f)) log =
    (Ok (OutSeries ((fun r => (Single r.1, p r)) <$> rows f)),
     log ++ row_calls f) /\
  s_index ((fun r : value * list value => (Single r.1, p r)) <$> rows f)
    = f_index f.
Proof.
  intros He Hne Hp. split.
  - cbn [apply]. apply multimethod_ok. unfold apply_frame.
    rewrite bind_unfold, self_check_init, bind_unfold, self_check_fn_init, He, Hne.
    rewrite bind_unfold.
    rewrite (map_fn_map
               (fun r : value * list value =>
                  (Single r.1, ArgRow (columns f) r.1 r.2))
               (fun r => OutBool (p r))) by exact Hp.
    cbn [fst snd].
    assert (Hm : (fun x : value * list value => (Single x.1, OutBool (p x)))
                   <$> rows f
                 = prod_map id OutBool
                     <$> ((fun r => (Single r.1, p r)) <$> rows f)).
    { rewrite <- list_fmap_compose. reflexivity. }
    rewrite Hm, bool_series_bools. reflexivity.
  - unfold s_index, f_index. rewrite <- !list_fmap_compose. reflexivity.
Qed.

(** The instance of X4 at "value > 0" on the column [1, 2, -1, 4]. *)
Lemma apply_element_wise_column_witness :
  apply (__init__ check_each_positive) (Plain (Column column_four)) [] =
  (Ok (OutSeries mask_four),
   [ EvCheckFn (ArgScalar (VInt 1)); EvCheckFn (ArgScalar (VInt 2));
     EvCheckFn (ArgScalar (VInt (-1))); EvCheckFn (ArgScalar (VInt 4)) ]).
Proof.
  apply (apply_element_wise_column check_each_positive column_four
           positive_value []); [reflexivity|].
  intros v _. reflexivity.
Defined.

(** The instances of X5 on the column [1, "x", 3], where the call on "x"
    raises and 3 is not visited: at a predicate whose exception is no
    TypeError, and at [index_positive], whose TypeError reaches the caller
    as a DispatchError. *)
Lemma apply_element_wise_stops_witness :
  apply (__init__ check_each_integer)
    (Plain (Column (column_before ++ (Single (VInt 1), VStr "x") :: column_after)))
    [] =
  (Raise (UserError "not an integer"),
   [ EvCheckFn (ArgScalar (VInt 1)); EvCheckFn (ArgScalar (VStr "x")) ]) /\
  apply (__init__ check_each_index)
    (Plain (Column (column_before ++ (Single (VInt 1), VStr "x") :: column_after)))
    [] =
  (Raise (DispatchErrorFrom "apply" (not_an_integer "str")),
   [ EvCheckFn (ArgScalar (VInt 1)); EvCheckFn (ArgScalar (VStr "x")) ]).
Proof.
  assert (Hbefore : forall (fn : pyarg -> list (string * value) -> outcome output)
                      (kw : list (string * value)) (v : value),
             is_ok (fn (ArgScalar (VInt 1)) kw) = true ->
             v ∈ s_values column_before ->
             is_ok (fn (ArgScalar v) kw) = true).
  { intros fn kw v H Hv. cbn in Hv. apply list_elem_of_singleton in Hv.
    subst v. exact H. }
  split.
  - apply (apply_element_wise_stops_at_exception check_each_integer
             column_before (Single (VInt 1)) (VStr "x") column_after
             (UserError "not an integer") []); [reflexivity| |reflexivity].
    intros v. apply Hbefore. reflexivity.
  - apply (apply_element_wise_stops_at_exception check_each_index
             column_before (Single (VInt 1)) (VStr "x") column_after
             (not_an_integer "str") []); [reflexivity| |reflexivity].
    intros v. apply Hbefore. reflexivity.
Defined.

(** The instance of X6 at "every value of the row > 0" on the table with
    columns a = [1, -1, 2] and b = [3, 4, -2]. *)
Lemma apply_element_wise_table_witness :
  apply (__init__ check_each_positive) (Plain (Table table_ab)) [] =
  (Ok (OutSeries (column_of [true; false; false])), row_calls table_ab).
Proof.
  apply (apply_element_wise_table check_each_positive table_ab
           (fun r => forallb positive_value r.2) []);
    [reflexivity | reflexivity |].
  intros r _. reflexivity.
Defined.

(** *** The number of predicate calls *)

Lemma elem_of_positions (key : string) (cols : list string) (j : nat) :
  j ∈ positions key cols <-> cols !! j = Some key.
Proof.
  unfold positions. rewrite list_elem_of_omap. split.
  - intros ([j' c] & Hin & Hm).
    apply elem_of_lookup_imap in Hin as (i & c' & [= -> ->] & Hc).
    cbn in Hm. case_decide as Heq; [|discriminate Hm].
    injection Hm as <-. subst c'. exact Hc.
  - intros Hc. exists (j, key). split.
    + apply elem_of_lookup_imap. exists j, key. split; [reflexivity|exact Hc].
    + cbn. case_decide; [reflexivity|contradiction].
Qed.

Lemma f_getitem_nrows f key c :
  f_getitem f key = Ok c -> nrows c = length (rows f).
Proof.
  unfold f_getitem. destruct (positions key (columns f)) as [|j [|j' js]].
  - discriminate.
  - destruct (mapM _ (rows f)) as [s|] eqn:E; [|discriminate].
    intros [= <-]. cbn. symmetry. eapply length_mapM, E.
  - intros [= <-]. cbn. apply length_fmap.
Qed.

Lemma f_getitem_populated f key c :
  f_empty f = false -> f_getitem f key = Ok c -> populated c = true.
Proof.
  unfold f_getitem. intros Hf.
  destruct (positions key (columns f)) as [|j [|j' js]] eqn:Ep.
  - discriminate.
  - destruct (mapM _ (rows f)); [|discriminate]. intros [= <-]. reflexivity.
  - intros [= <-]. unfold populated, f_empty in *. cbn [rows columns].
    destruct (rows f) as [|r rs]; [discriminate Hf|]. cbn [fmap list_fmap].
    assert (Hj : columns f !! j = Some key).
    { apply elem_of_positions. rewrite Ep. left. }
    unfold project. cbn [omap list_omap]. rewrite Hj. reflexivity.
Qed.

Lemma preprocess_plain pd_groupby self obj key log c log1 :
  preprocess pd_groupby self obj key log = (Ok (Plain c), log1) ->
  match key with
  | Some k => exists f, obj = Table f /\ f_getitem f k = Ok c
  | None => c = obj
  end.
Proof.
  unfold preprocess. destruct obj as [s|f], key as [k|]; intros H;
    try discriminate H; apply multimethod_ok_inv in H.
  - injection H as <- _. reflexivity.
  - unfold preprocess_frame_key in H.
    inv_bind H. unfold lift in H0. injection H0 as H0 _.
    exists f. split; [reflexivity|]. inv_bind H.
    destruct (Checks.groupby a0).
    + unfold preprocess_grouped_input in H.
      inv_bind H. inv_bind H. inv_bind H. inv_bind H. discriminate H.
    + injection H as <- _. exact H0.
  - unfold preprocess_frame in H. inv_bind H. destruct (Checks.groupby a).
    + unfold preprocess_grouped_input in H.
      inv_bind H. inv_bind H. inv_bind H. inv_bind H. discriminate H.
    + injection H as <- _. reflexivity.
Qed.

Lemma preprocess_nrows pd_groupby self obj key log c log1 :
  preprocess pd_groupby self obj key log = (Ok (Plain c), log1) ->
  nrows c = nrows obj.
Proof.
  intros H. apply preprocess_plain in H. destruct key as [k|].
  - destruct H as (f & -> & H). apply (f_getitem_nrows _ _ _ H).
  - subst c. reflexivity.
Qed.

Lemma preprocess_populated pd_groupby self obj key log c log1 :
  populated obj = true ->
  preprocess pd_groupby self obj key log = (Ok (Plain c), log1) ->
  populated c = true.
Proof.
  intros Hn H. apply preprocess_plain in H. destruct key as [k|].
  - destruct H as (f & -> & H). cbn in Hn.
    apply (f_getitem_populated f k); [|exact H].
    destruct (f_empty f); [discriminate Hn | reflexivity].
  - subst c. exact Hn.
Qed.

Lemma apply_calls check (c : container) log :
  populated c = true ->
  predicate_calls log <= predicate_calls (apply (__init__ check) (Plain c) log).2
  <= predicate_calls log + (if element_wise check then nrows c else 1).
Proof.
  intros Hn. destruct c as [s|f]; cbn [apply]; rewrite multimethod_log.
  - unfold apply_series.
    rewrite bind_unfold, self_check_init, bind_unfold, self_check_fn_init.
    destruct (element_wise check).
    + rewrite bind_unfold.
      pose proof (map_fn_calls
                    (partial (_check_fn check) (_check_kwargs check))
                    (prod_map id ArgScalar <$> s) log) as Hm.
      rewrite length_fmap in Hm.
      destruct (map_fn _ _ log) as [[r|e|] log1]; cbn [snd nrows] in *;
        [rewrite silent_bool_series|..]; exact Hm.
    + rewrite call_unfold. cbn [snd]. rewrite predicate_calls_app.
      cbn. lia.
  - unfold apply_frame.
    rewrite bind_unfold, self_check_init, bind_unfold, self_check_fn_init.
    cbn in Hn. destruct (f_empty f); [discriminate Hn|].
    destruct (element_wise check).
    + rewrite bind_unfold.
      pose proof (map_fn_calls
                    (partial (_check_fn check) (_check_kwargs check))
                    ((fun r : value * list value =>
                        (Single r.1, ArgRow (columns f) r.1 r.2)) <$> rows f)
                    log) as Hm.
      rewrite length_fmap in Hm.
      destruct (map_fn _ _ log) as [[r|e|] log1]; cbn [snd nrows] in *;
        [rewrite silent_bool_series|..]; exact Hm.
    + rewrite call_unfold. cbn [snd]. rewrite predicate_calls_app.
      cbn. lia.
Qed.

(** X7. One run of the pipeline on a column, or on a table that has rows
    and columns, calls the predicate at most once when [element_wise] is
    false and at most once per row of the object when it is true,
    whatever the check, the key and the outcome; [preprocess] and
    [postprocess] make none of these calls. (Along a table with an empty
    axis pandas probes the predicate although there is no row to call it
    on.) *)
Theorem predicate_call_budget
    (pd_groupby : container -> string -> outcome groupby_object)
    (check : BaseCheck) (obj : container) (key : option string)
    (log : list event) :
  populated obj = true ->
  predicate_calls log
  <= predicate_calls (__call__ pd_groupby (__init__ check) obj key log).2
  <= predicate_calls log + (if element_wise check then nrows obj else 1).
Proof.
  intros Hn. unfold __call__. rewrite bind_unfold.
  pose proof (predicate_free_preprocess pd_groupby (__init__ check) obj key log)
    as Hp.
  destruct (preprocess pd_groupby (__init__ check) obj key log)
    as [[obj'|e|] log1] eqn:Epre; cbn [snd] in *; try lia.
  rewrite bind_unfold. destruct obj' as [c|d].
  - pose proof (apply_calls check c log1
                  (preprocess_populated _ _ _ _ _ _ _ Hn Epre)) as Ha.
    rewrite (preprocess_nrows _ _ _ _ _ _ _ Epre) in Ha.
    destruct (apply (__init__ check) (Plain c) log1) as [[out|e|] log2];
      cbn [snd] in *; [rewrite silent_postprocess|..]; lia.
  - unfold apply, raise. cbn [snd]. lia.
Qed.

(** The instance of X7 at the element-wise check "value > 0" on the
    column [1, 2, -1, 4]: at most four calls. *)
Lemma predicate_call_budget_witness :
  predicate_calls
    (__call__ pd_groupby_unmodelled (__init__ check_each_positive)
       (Column column_four) None []).2 <= 4.
Proof.
  apply (predicate_call_budget pd_groupby_unmodelled check_each_positive
           (Column column_four) None [] eq_refl).
Defined.

(** *** The pipeline on a column *)

Lemma with_na_map (p : value -> bool) (ignore : bool) (s : series value) :
  with_na ignore (prod_map id p <$> s) (s_isna s)
  = prod_map id (passes p ignore) <$> s.
Proof.
  unfold with_na, s_isna, passes. destruct ignore.
  - induction s as [|[l v] s IH]; [reflexivity|]. cbn in *. f_equal. exact IH.
  - induction s as [|[l v] s IH]; [reflexivity|]. cbn in *.
    rewrite orb_false_r. f_equal. exact IH.
Qed.

Lemma at_false_map (q : value -> bool) (s : series value) :
  at_false s (s_values (prod_map id q <$> s))
  = filter (fun r : label * value => q r.2 = false) s.
Proof.
  unfold s_values. induction s as [|[l v] s IH]; [reflexivity|].
  rewrite !fmap_cons. cbn [prod_map fst snd]. rewrite at_false_cons, IH.
  destruct (q v) eqn:Eq.
  - rewrite filter_cons_False; [reflexivity|]. cbn. rewrite Eq. discriminate.
  - rewrite filter_cons_True; [reflexivity|]. exact Eq.
Qed.

Lemma forallb_map (q : value -> bool) (s : series value) :
  forallb id (s_values (prod_map id q <$> s)) = forallb q (s_values s).
Proof.
  unfold s_values. induction s as [|[l v] s IH]; [reflexivity|].
  cbn in *. rewrite IH. reflexivity.
Qed.

(** X8. The whole pipeline on a bare column with an element-wise
    predicate that maps the values to Python booleans: the predicate is
    called once per row in row order; [check_output] holds, under the
    index of the column, the verdict on each value (the predicate, or a
    missing value under [ignore_na]); [check_passed] is the conjunction
    of the verdicts; and [failure_cases] holds the rows whose verdict is
    false, in order, cut to the first [n_failure_cases] when that count
    is set. *)
Theorem element_wise_column_pipeline
    (pd_groupby : container -> string -> outcome groupby_object)
    (check : BaseCheck) (s : series value) (p : value -> bool)
    (log : list event) :
  element_wise check = true ->
  (forall v, v ∈ s_values s ->
     _check_fn check (ArgScalar v) (_check_kwargs check) = Ok (OutBool (p v))) ->
  bound_ok (n_failure_cases check) (s_index s) ->
  __call__ pd_groupby (__init__ check) (Column s) None log =
  (Ok {| check_output :=
           OutSeries (prod_map id (passes p (ignore_na check)) <$> s);
         check_passed := forallb (passes p (ignore_na check)) (s_values s);
         checked_object := Plain (Column s);
         failure_cases :=
           Some (FcSeries
                   (bounded (n_failure_cases check)
                      (filter (fun r : label * value =>
                                 passes p (ignore_na check) r.2 = false) s)))
      |},
   log ++ scalar_calls s).
Proof.
  intros He Hp Hb. unfold __call__. cbn [preprocess].
  rewrite bind_unfold.
  rewrite (multimethod_ok "preprocess" (preprocess_series s) log
             (Plain (Column s)) log eq_refl).
  rewrite bind_unfold.
  rewrite (apply_column_elements check s p log He Hp).
  rewrite postprocess_column_spec; [| |exact Hb].
  - cbv zeta. rewrite with_na_map, at_false_map, forallb_map. reflexivity.
  - unfold s_index. rewrite <- list_fmap_compose. reflexivity.
Qed.

(** The instance of X8 at "value > 0" on the column [1, 2, -1, 4]: the
    check fails with the failure case -1 after four calls. *)
Lemma element_wise_column_pipeline_witness :
  __call__ pd_groupby_unmodelled (__init__ check_each_positive)
           (Column column_four) None [] =
  (Ok {| check_output := OutSeries mask_four;
         check_passed := false;
         checked_object := Plain (Column column_four);
         failure_cases := Some (FcSeries [(Single (VInt 2), VInt (-1))]) |},
   scalar_calls column_four).
Proof.
  apply (element_wise_column_pipeline pd_groupby_unmodelled
           check_each_positive column_four positive_value []);
    [reflexivity | | exact I].
  intros v _. reflexivity.
Defined.

(** X9. An exception of the predicate ends the pipeline: with
    [element_wise] false, when the predicate raises on the preprocessed
    object, [__call__] raises after that single call and [postprocess] is
    not reached. The backend catches nothing, but [apply] is a
    multimethod: an exception that is no TypeError reaches the caller as
    it was raised, a TypeError as the DispatchError raised from it, which
    keeps it as its cause. *)
Theorem predicate_exception_propagates
    (pd_groupby : container -> string -> outcome groupby_object)
    (check : BaseCheck) (obj : container) (key : option string)
    (log log1 : list event) (obj' : container) (e : exn) :
  element_wise check = false ->
  preprocess pd_groupby (__init__ check) obj key log = (Ok (Plain obj'), log1) ->
  _check_fn check (ArgObj obj') (_check_kwargs check) = Raise e ->
  __call__ pd_groupby (__init__ check) obj key log =
  (Raise (if is_type_error e then DispatchErrorFrom "apply" e else e),
   log1 ++ [EvCheckFn (ArgObj obj')]).
Proof.
  intros He Hp Hfn. unfold __call__.
  rewrite bind_unfold, Hp, bind_unfold, (apply_whole _ _ _ He), Hfn.
  reflexivity.
Qed.

(** The instances of X9 at predicates applied to a whole column: one
    whose exception is no TypeError, and [index_positive], whose
    TypeError reaches the caller as a DispatchError. *)
Lemma predicate_exception_witness :
  __call__ pd_groupby_unmodelled
    (__init__ (mk_check positive_integer false None None false None))
    (Column column_before) None [] =
  (Raise (UserError "not an integer"),
   [EvCheckFn (ArgObj (Column column_before))]) /\
  __call__ pd_groupby_unmodelled
    (__init__ (mk_check index_positive false None None false None))
    (Column column_before) None [] =
  (Raise (DispatchErrorFrom "apply" (not_an_integer "Series")),
   [EvCheckFn (ArgObj (Column column_before))]).
Proof.
  split.
  - apply (predicate_exception_propagates pd_groupby_unmodelled
             (mk_check positive_integer false None None false None)
             (Column column_before) None [] [] (Column column_before)
             (UserError "not an integer")); reflexivity.
  - apply (predicate_exception_propagates pd_groupby_unmodelled
             (mk_check index_positive false None None false None)
             (Column column_before) None [] [] (Column column_before)
             (not_an_integer "Series")); reflexivity.
Defined.

(** X10. On a bare column the grouping of the check has no effect: with
    no key, [preprocess] returns the column as it is without calling a
    grouping function, and the pipeline gives the result, and makes the
    calls, that it gives for the same check without [groupby] and
    [groups]. *)
Theorem bare_column_ignores_grouping
    (pd_groupby : container -> string -> outcome groupby_object)
    (check : BaseCheck) (s : series value) (log : list event) :
  preprocess pd_groupby (__init__ check) (Column s) None log
    = (Ok (Plain (Column s)), log) /\
  __call__ pd_groupby (__init__ check) (Column s) None log
    = __call__ pd_groupby (__init__ (ungrouped check)) (Column s) None log.
Proof.
  split; [reflexivity|].
  unfold __call__. cbn [preprocess]. rewrite !bind_unfold.
  rewrite !(multimethod_ok "preprocess" (preprocess_series s) log
              (Plain (Column s)) log eq_refl).
  reflexivity.
Qed.

(** *** Missing values and the verdict *)

Lemma zip_same_index {A B} (c : series A) (o : series B) x y :
  s_index o = s_index c -> (x, y) ∈ zip c o -> y.1 = x.1.
Proof.
  unfold s_index. revert o. induction c as [|[l v] c IH]; intros [|[l' b] o] Hi Hin;
    try (inversion Hin; fail).
  injection Hi as Hl Hi. cbn in Hin.
  apply elem_of_cons in Hin as [[= -> ->]|Hin]; [exact Hl|].
  eapply IH; eassumption.
Qed.

Lemma forallb_with_na (ignore : bool) (c : series value) (o : series bool) :
  s_index o = s_index c ->
  forallb id (s_values (with_na ignore o (s_isna c)))
  = forallb (fun x : (label * value) * (label * bool) =>
               x.2.2 || (ignore && isna x.1.2)) (zip c o).
Proof.
  unfold s_index, with_na, s_isna, s_values. revert o.
  induction c as [|[l v] c IH]; intros [|[l' b] o] Hi; try discriminate Hi.
  - destruct ignore; reflexivity.
  - injection Hi as _ Hi. specialize (IH o Hi).
    destruct ignore; cbn in *; rewrite IH; [reflexivity|].
    rewrite orb_false_r. reflexivity.
Qed.

Lemma elem_of_bounded {X} (n : option Z) (l : list X) x :
  x ∈ bounded n l -> x ∈ l.
Proof.
  destruct n as [k|]; cbn; [|tauto].
  intros (i & Hi & _)%elem_of_take. apply list_elem_of_lookup. eauto.
Qed.

(** X11. [ignore_na] on a column: with a row mask that carries the index
    of the column, the check passes exactly when every row either has a
    true output or holds a missing value; no failure case holds a missing
    value, every failure case is a row of the column whose output is
    false, and without a bound every such row with a value is a failure
    case. *)
Theorem ignore_na_column
    (check : BaseCheck) (c : series value) (o : series bool)
    (log : list event) :
  ignore_na check = true ->
  s_index o = s_index c ->
  bound_ok (n_failure_cases check) (s_index c) ->
  exists r fc,
    postprocess (__init__ check) (Plain (Column c)) (OutSeries o) log
      = (Ok r, log) /\
    failure_cases r = Some (FcSeries fc) /\
    (check_passed r = true <->
     forall x, x ∈ zip c o -> x.2.2 = true \/ isna x.1.2 = true) /\
    (forall x, x ∈ fc -> isna x.2 = false /\ (x, (x.1, false)) ∈ zip c o) /\
    (n_failure_cases check = None ->
     forall x, (x, (x.1, false)) ∈ zip c o -> isna x.2 = false -> x ∈ fc).
Proof.
  intros Hna Hi Hb. eexists. eexists.
  split; [apply postprocess_column_spec; assumption|].
  split; [reflexivity|]. cbn [check_passed]. rewrite Hna.
  rewrite (fuse_failing true c o Hi), (forallb_with_na true c o Hi).
  split; [|split].
  - rewrite forallb_forall. split.
    + intros H x Hx. apply list_elem_of_In, H in Hx. cbn in Hx.
      apply orb_true_iff in Hx. exact Hx.
    + intros H x Hx. apply list_elem_of_In, H in Hx. cbn.
      apply orb_true_iff. exact Hx.
  - intros x Hx. apply elem_of_bounded in Hx.
    apply list_elem_of_omap in Hx as ([x' [l b]] & Hin & Hf).
    pose proof (zip_same_index c o _ _ Hi Hin) as Hl. cbn in Hl.
    unfold failing_entry in Hf. cbn in Hf.
    destruct b; [discriminate Hf|]. cbn in Hf.
    destruct (isna x'.2) eqn:En; [discriminate Hf|].
    injection Hf as <-. subst l. split; [exact En | exact Hin].
  - intros Hn x Hin Hv. rewrite Hn. cbn [bounded].
    apply list_elem_of_omap. exists (x, (x.1, false)). split; [exact Hin|].
    unfold failing_entry. cbn. rewrite Hv. reflexivity.
Qed.

(** The instance of X11 at the column [1, NaN] under the output [T, F]:
    the missing value passes. *)
Lemma ignore_na_column_witness :
  exists r,
    postprocess (__init__ (mk_check positive false None None true None))
      (Plain (Column (column_of [VInt 1; VNa])))
      (OutSeries (column_of [true; false])) [] = (Ok r, []) /\
    check_passed r = true /\
    failure_cases r = Some (FcSeries []).
Proof.
  destruct (ignore_na_column (mk_check positive false None None true None)
              (column_of [VInt 1; VNa]) (column_of [true; false]) []
              eq_refl eq_refl I) as (r & fc & Hr & _).
  exists r. split; [exact Hr|].
  injection Hr as <-. split; reflexivity.
Defined.

Lemma omap_failing_row_cons (ignore : bool) x xs :
  omap (failing_row ignore) (x :: xs) =
  if x.2.2 || (ignore && existsb isna x.1.2)
  then omap (failing_row ignore) xs
  else x.1 :: omap (failing_row ignore) xs.
Proof.
  cbn [omap list_omap]. unfold failing_row at 1.
  destruct (x.2.2 || ignore && existsb isna x.1.2); reflexivity.
Qed.

Lemma fuse_failing_rows (ignore : bool) (rs : list (value * list value))
    (o : series bool) :
  s_index o = Single <$> rs.*1 ->
  at_false rs
    (s_values (with_na ignore o
                 ((fun r : value * list value =>
                     (Single r.1, existsb isna r.2)) <$> rs)))
  = omap (failing_row ignore) (zip rs o)
  /\
  forallb id
    (s_values (with_na ignore o
                 ((fun r : value * list value =>
                     (Single r.1, existsb isna r.2)) <$> rs)))
  = forallb (fun x : (value * list value) * (label * bool) =>
               x.2.2 || (ignore && existsb isna x.1.2)) (zip rs o).
Proof.
  unfold s_index, with_na, s_values. revert o.
  induction rs as [|[i cells] rs IH]; intros [|[l b] o] Hi;
    try discriminate Hi.
  - destruct ignore; split; reflexivity.
  - injection Hi as _ Hi. destruct (IH o Hi) as [IH1 IH2].
    destruct ignore;
      cbn [zip_with fmap list_fmap fst snd forallb id] in *;
      rewrite at_false_cons, IH1, IH2, omap_failing_row_cons;
      cbn [fst snd andb].
    + split; reflexivity.
    + rewrite orb_false_r. split; reflexivity.
Qed.

(** X12. A table under a row mask that carries its row index: the
    failure cases are whole rows of the table, with all its columns, in
    their order: the rows whose output is false and, under [ignore_na],
    that hold no missing cell (a missing cell anywhere in the row makes
    the row pass), cut to the first [n_failure_cases] when that count is
    set; [check_passed] is the conjunction over the rows of that
    verdict. *)
Theorem table_row_failure_cases
    (check : BaseCheck) (t : frame value) (o : series bool)
    (log : list event) :
  s_index o = f_index t ->
  columns t <> [] ->
  bound_ok (n_failure_cases check) (f_index t) ->
  postprocess (__init__ check) (Plain (Table t)) (OutSeries o) log =
  (Ok {| check_output := OutSeries (with_na (ignore_na check) o (f_isna_any t));
         check_passed :=
           forallb (fun x : (value * list value) * (label * bool) =>
                      x.2.2 || (ignore_na check && existsb isna x.1.2))
                   (zip (rows t) o);
         checked_object := Plain (Table t);
         failure_cases :=
           Some (FcFrame
                   (DataFrame (columns t)
                      (bounded (n_failure_cases check)
                         (omap (failing_row (ignore_na check))
                               (zip (rows t) o))))) |}, log).
Proof.
  intros Hi Hc Hb.
  rewrite (postprocess_table_rows_spec check t o log Hi Hc Hb). cbv zeta.
  destruct (fuse_failing_rows (ignore_na check) (rows t) o Hi) as [H1 H2].
  unfold f_isna_any. rewrite H1, H2. reflexivity.
Qed.

(** The instance of X12 at the table with columns a = [1, -1, 2] and
    b = [3, 4, -2] under the row output [T, F, F]: the second and third
    rows, whole. *)
Lemma table_row_failure_cases_witness :
  postprocess (__init__ check_positive) (Plain (Table table_ab))
    (OutSeries (column_of [true; false; false])) [] =
  (Ok {| check_output := OutSeries (column_of [true; false; false]);
         check_passed := false;
         checked_object := Plain (Table table_ab);
         failure_cases :=
           Some (FcFrame
                   (DataFrame ["a"; "b"]
                      [ (VInt 1, [VInt (-1); VInt 4]);
                        (VInt 2, [VInt 2; VInt (-2)]) ])) |}, []).
Proof.
  apply (table_row_failure_cases check_positive table_ab
           (column_of [true; false; false]) []);
    [reflexivity | discriminate | exact I].
Defined.

(** *** The verdict and the failure cases *)

Lemma at_false_nil_iff {X} (items : list X) (vals : list bool) :
  length items = length vals ->
  at_false items vals = [] <-> forallb id vals = true.
Proof.
  revert vals. induction items as [|x items IH]; intros [|b vals] Hl;
    try discriminate Hl.
  - split; reflexivity.
  - injection Hl as Hl. rewrite at_false_cons. destruct b; cbn.
    + apply IH, Hl.
    + split; discriminate.
Qed.

Lemma take_nil_iff {X} (k : nat) (l : list X) :
  1 <= k -> take k l = [] <-> l = [].
Proof.
  intros Hk. destruct k as [|k]; [lia|].
  destruct l; cbn; split; intros H; try reflexivity; discriminate H.
Qed.

Lemma bounded_nil_iff {X} (n : option Z) (l : list X) :
  (forall k, n = Some k -> (1 <= k)%Z) -> bounded n l = [] <-> l = [].
Proof.
  intros Hn. destruct n as [k|]; cbn; [|reflexivity].
  apply take_nil_iff. specialize (Hn k eq_refl). lia.
Qed.

Lemma bounded_long_nil_iff (n : option Z) (l : list long_row) :
  (forall k, n = Some k -> (1 <= k)%Z) -> bounded_long n l = [] <-> l = [].
Proof.
  intros Hn. destruct n as [k|]; cbn; [|reflexivity].
  specialize (Hn k eq_refl). rewrite head_nonneg by lia.
  rewrite take_nil_iff by lia.
  destruct l as [|x l]; [split; reflexivity|].
  unfold drop_duplicates. cbn. case_decide as Hin; [inversion Hin|].
  split; discriminate.
Qed.

Lemma same_index_length {A B} (a : series A) (b : series B) :
  s_index a = s_index b -> length a = length b.
Proof.
  intros H. apply (f_equal length) in H. unfold s_index in H.
  rewrite !length_fmap in H. exact H.
Qed.

Lemma long_failures_fused (ignore : bool) (t : frame value) (o : frame bool) :
  same_layout t o ->
  mapM long_of
    (at_false (unstack t)
       (s_values (with_na ignore (unstack o) (s_isna (unstack t)))))
  = Some (long_failures ignore t o).
Proof.
  intros Hl. pose proof (unstack_index t o Hl) as Hi.
  pose proof (same_layout_aligned t o Hl) as Hal.
  rewrite (fuse_failing ignore _ _ Hi).
  destruct Hl as (_ & _ & Hc & _). unfold unstack, long_failures. rewrite Hc.
  exact (proj2 (unstack_spec ignore (rows t) (rows o) (columns t)
                  (fun j => j) Hal)).
Qed.

Lemma length_nil_iff {X} (l : list X) : length l = 0 <-> l = [].
Proof. destruct l; cbn; split; intros H; try reflexivity; discriminate H. Qed.

(** X13. When [n_failure_cases] is None or at least one, the verdict and
    the failure cases agree: under a row mask over a column, under a row
    mask over a table that has a column, and under a cell mask over a
    table, the check passes exactly when the result holds no failure
    case. *)
Theorem passed_iff_no_failure_cases (check : BaseCheck) (log : list event) :
  (forall k, n_failure_cases check = Some k -> (1 <= k)%Z) ->
  (forall (c : series value) (o : series bool),
     s_index o = s_index c ->
     (n_failure_cases check <> None -> NoDup (s_index c)) ->
     exists r,
       postprocess (__init__ check) (Plain (Column c)) (OutSeries o) log
         = (Ok r, log) /\
       (check_passed r = true <-> failure_count r = 0)) /\
  (forall (t : frame value) (o : series bool),
     s_index o = f_index t -> columns t <> [] ->
     (n_failure_cases check <> None -> NoDup (f_index t)) ->
     exists r,
       postprocess (__init__ check) (Plain (Table t)) (OutSeries o) log
         = (Ok r, log) /\
       (check_passed r = true <-> failure_count r = 0)) /\
  (forall (t : frame value) (o : frame bool),
     same_layout t o ->
     exists r,
       postprocess (__init__ check) (Plain (Table t)) (OutFrame o) log
         = (Ok r, log) /\
       (check_passed r = true <-> failure_count r = 0)).
Proof.
  intros Hk.
  assert (Hb : forall idx, (n_failure_cases check <> None -> NoDup idx) ->
                           bound_ok (n_failure_cases check) idx).
  { intros idx Hnd. unfold bound_ok.
    destruct (n_failure_cases check) as [k|] eqn:En; [|exact I].
    split; [specialize (Hk k eq_refl); lia | apply Hnd; discriminate]. }
  split; [|split].
  - intros c o Hi Hnd. eexists.
    split; [apply postprocess_column_spec; [exact Hi | apply Hb, Hnd]|].
    unfold failure_count. cbn [check_passed failure_cases].
    rewrite length_nil_iff, (bounded_nil_iff _ _ Hk).
    symmetry. apply at_false_nil_iff. unfold s_values. rewrite length_fmap.
    apply same_index_length. symmetry.
    rewrite with_na_index by (rewrite s_index_isna; exact Hi). exact Hi.
  - intros t o Hi Hc Hnd. eexists.
    split; [apply postprocess_table_rows_spec;
            [exact Hi | exact Hc | apply Hb, Hnd]|].
    unfold failure_count. cbn [check_passed failure_cases rows].
    rewrite length_nil_iff, (bounded_nil_iff _ _ Hk).
    symmetry. apply at_false_nil_iff. unfold s_values. rewrite length_fmap.
    assert (Hi' : s_index (with_na (ignore_na check) o (f_isna_any t))
                  = f_index t).
    { rewrite with_na_index by (rewrite f_index_isna_any; exact Hi). exact Hi. }
    apply (f_equal length) in Hi'. unfold s_index in Hi'.
    rewrite length_fmap, f_index_length in Hi'. symmetry. exact Hi'.
  - intros t o Hl. eexists.
    split; [apply postprocess_table_cells_spec; exact Hl|].
    unfold failure_count. cbn [check_passed failure_cases].
    rewrite length_nil_iff, (bounded_long_nil_iff _ _ Hk).
    pose proof (long_failures_fused (ignore_na check) t o Hl) as Hm.
    apply length_mapM in Hm.
    rewrite <- (length_nil_iff (long_failures _ _ _)), <- Hm, length_nil_iff.
    symmetry. apply at_false_nil_iff. unfold s_values. rewrite length_fmap.
    apply same_index_length. symmetry.
    pose proof (unstack_index t o Hl) as Hi.
    rewrite with_na_index by (rewrite s_index_isna; exact Hi). exact Hi.
Qed.

(** The instance of X13 at "value > 0", at most one failure case, on the
    column [1, -1, -2] under the output [T, F, F]: the check fails and
    there is a failure case. *)
Lemma passed_iff_no_failure_cases_witness :
  exists r,
    postprocess (__init__ (check_at_most 1)) (Plain (Column column_neg))
                (OutSeries mask_neg) [] = (Ok r, []) /\
    (check_passed r = true <-> failure_count r = 0).
Proof.
  assert (Hk : forall k, n_failure_cases (check_at_most 1) = Some k -> (1 <= k)%Z).
  { intros k [= <-]. lia. }
  destruct (passed_iff_no_failure_cases (check_at_most 1) [] Hk) as (Hcol & _).
  apply (Hcol column_neg mask_neg); [reflexivity|].
  intros _. apply (bool_decide_unpack _). vm_compute. exact I.
Defined.

(** *** Grouping on a backend that carries [groups] *)

Lemma self_groups_with_groups keys self log :
  self_groups (with_groups keys self) log = (Ok keys, log).
Proof.
  unfold self_groups, getattr, with_groups.
  rewrite bind_unfold, lookup_insert_eq. reflexivity.
Qed.

Lemma self_check_with_groups keys check log :
  self_check (with_groups keys (__init__ check)) log = (Ok check, log).
Proof.
  unfold self_check, getattr, with_groups.
  rewrite bind_unfold, lookup_insert_ne by discriminate.
  rewrite init_check. reflexivity.
Qed.

Lemma groupby_with_groups pd_groupby keys check col log :
  groupby pd_groupby (with_groups keys (__init__ check)) col log
  = groupby pd_groupby (__init__ check) col log.
Proof.
  unfold groupby.
  rewrite !bind_unfold, self_check_with_groups, self_check_init. reflexivity.
Qed.

(** With [groups] assigned, grouped preprocessing of a table gets
    through to [_format_groupby_input] and ends with its outcome. *)
Lemma preprocess_with_groups pd_groupby check g keys f key log col gb log1 :
  Checks.groupby check = Some g ->
  projected f key = Ok col ->
  groupby pd_groupby (__init__ check) col log = (Ok gb, log1) ->
  preprocess pd_groupby (with_groups keys (__init__ check)) (Table f) key log =
  (reraise_outcome "preprocess"
     match _format_groupby_input gb keys with
     | Ok d => Ok (Grouped d)
     | Raise e => Raise e
     | Unmodelled => Unmodelled
     end, log1 ++ [EvFormatGroupbyInput]).
Proof.
  intros Hg Hp Hgb.
  assert (Hin : preprocess_grouped_input pd_groupby
                  (with_groups keys (__init__ check)) col log =
                (match _format_groupby_input gb keys with
                 | Ok d => Ok (Grouped d)
                 | Raise e => Raise e
                 | Unmodelled => Unmodelled
                 end, log1 ++ [EvFormatGroupbyInput])).
  { unfold preprocess_grouped_input.
    rewrite bind_unfold, groupby_with_groups, Hgb.
    rewrite bind_unfold, self_groups_with_groups, bind_unfold.
    unfold tell. rewrite bind_unfold. unfold lift.
    destruct (_format_groupby_input gb keys); reflexivity. }
  destruct key as [k|]; cbn in Hp; cbn [preprocess]; apply multimethod_eq.
  - unfold preprocess_frame_key. rewrite bind_unfold. unfold lift at 1.
    rewrite Hp. rewrite bind_unfold, self_check_with_groups, Hg. exact Hin.
  - injection Hp as <-. unfold preprocess_frame.
    rewrite bind_unfold, self_check_with_groups, Hg. exact Hin.
Qed.

Lemma format_groupby_input_raises (gb : groupby_object) (keys : list value)
    (k0 : value) :
  k0 ∈ keys -> k0 ∉ gb.*1 ->
  _format_groupby_input gb (Some keys)
  = Raise (KeyError (invalid_groups_message gb keys)).
Proof.
  intros Hin Hout. unfold _format_groupby_input, invalid_groups_message.
  rewrite invalid_keys_filter.
  destruct (invalid_keys gb keys) as [|x l] eqn:E; [|reflexivity].
  assert (Hx : k0 ∈ invalid_keys gb keys).
  { unfold invalid_keys. apply list_elem_of_filter. split; assumption. }
  rewrite E in Hx. inversion Hx.
Qed.

Lemma groupby_predicate_calls pd_groupby check col log gb log1 :
  groupby pd_groupby (__init__ check) col log = (Ok gb, log1) ->
  predicate_calls (log1 ++ [EvFormatGroupbyInput]) = predicate_calls log.
Proof.
  intros Hgb.
  pose proof (predicate_free_groupby pd_groupby (__init__ check) col log) as H.
  rewrite Hgb in H. cbn [snd] in H.
  rewrite predicate_calls_app, H. cbn. lia.
Qed.

(** X14. On a backend on which the attribute [groups] has been assigned,
    a grouped check on a table whose allow-list names a key that is no
    group key fails as the allow-list demands: once the projection and
    the grouping have succeeded, the pipeline raises the KeyError that
    names the invalid keys and the set of group keys, and the predicate
    has not been called. *)
Theorem assigned_groups_raise_key_error
    (pd_groupby : container -> string -> outcome groupby_object)
    (check : BaseCheck) (g : grouping) (keys : list value) (k0 : value)
    (f : frame value) (key : option string) (log log1 : list event)
    (col : container) (gb : groupby_object) :
  Checks.groupby check = Some g ->
  projected f key = Ok col ->
  groupby pd_groupby (__init__ check) col log = (Ok gb, log1) ->
  k0 ∈ keys -> k0 ∉ gb.*1 ->
  __call__ pd_groupby (with_groups (Some keys) (__init__ check)) (Table f) key log
    = (Raise (KeyError (invalid_groups_message gb keys)),
       log1 ++ [EvFormatGroupbyInput]) /\
  predicate_calls (log1 ++ [EvFormatGroupbyInput]) = predicate_calls log.
Proof.
  intros Hg Hp Hgb Hin Hout.
  split; [|eapply groupby_predicate_calls, Hgb].
  unfold __call__. rewrite bind_unfold.
  rewrite (preprocess_with_groups _ _ _ _ _ _ _ _ _ _ Hg Hp Hgb).
  rewrite (format_groupby_input_raises gb keys k0 Hin Hout). reflexivity.
Qed.

(** The instance of X14 at the check of the specification's example:
    groups a and b exist, group z is requested. *)
Lemma assigned_groups_witness :
  __call__ pd_groupby_unmodelled
    (with_groups (Some [VStr "z"]) (__init__ check_z)) (Table table_ab) None []
  = (Raise (KeyError
       [ Text "groups "; ReprList [VStr "z"];
         Text " provided in `groups` argument not a valid group key. Valid group keys: ";
         ReprSet {[ VStr "a"; VStr "b" ]} ]),
     [EvGroupbyFn (Table table_ab); EvFormatGroupbyInput]).
Proof.
  refine (proj1 (assigned_groups_raise_key_error pd_groupby_unmodelled
                   check_z (ByFunction halves) [VStr "z"] (VStr "z")
                   table_ab None [] [EvGroupbyFn (Table table_ab)]
                   (Table table_ab)
                   [ (VStr "a", Table (DataFrame (columns table_ab)
                                         (take 1 (rows table_ab))));
                     (VStr "b", Table (DataFrame (columns table_ab)
                                         (drop 1 (rows table_ab)))) ]
                   eq_refl eq_refl eq_refl _ _)).
  - left.
  - apply (bool_decide_unpack _). vm_compute. exact I.
Defined.

(** X15. The mapping of groups cannot be applied: on a backend on which
    [groups] has been assigned, when grouped preprocessing of a table
    succeeds, [preprocess] returns the mapping from group key to group and
    the pipeline then fails in [apply], which has no signature for a
    mapping, without calling the predicate on any group. *)
Theorem grouped_mapping_is_not_applied
    (pd_groupby : container -> string -> outcome groupby_object)
    (check : BaseCheck) (g : grouping) (keys : option (list value))
    (f : frame value) (key : option string) (log log1 : list event)
    (col : container) (gb : groupby_object) (d : gmap value container) :
  Checks.groupby check = Some g ->
  projected f key = Ok col ->
  groupby pd_groupby (__init__ check) col log = (Ok gb, log1) ->
  _format_groupby_input gb keys = Ok d ->
  preprocess pd_groupby (with_groups keys (__init__ check)) (Table f) key log
    = (Ok (Grouped d), log1 ++ [EvFormatGroupbyInput]) /\
  __call__ pd_groupby (with_groups keys (__init__ check)) (Table f) key log
    = (Raise (DispatchError "apply"), log1 ++ [EvFormatGroupbyInput]) /\
  predicate_calls (log1 ++ [EvFormatGroupbyInput]) = predicate_calls log.
Proof.
  intros Hg Hp Hgb Hd.
  pose proof (preprocess_with_groups pd_groupby check g keys f key log col
                gb log1 Hg Hp Hgb) as Hpre.
  rewrite Hd in Hpre.
  split; [exact Hpre|]. split; [|eapply groupby_predicate_calls, Hgb].
  unfold __call__. rewrite bind_unfold, Hpre. reflexivity.
Qed.

(** The instance of X15 at the groups a and b of [halves] with group a
    requested. *)
Lemma grouped_mapping_witness :
  __call__ pd_groupby_unmodelled
    (with_groups (Some [VStr "a"]) (__init__ check_z)) (Table table_ab) None []
  = (Raise (DispatchError "apply"),
     [EvGroupbyFn (Table table_ab); EvFormatGroupbyInput]).
Proof.
  refine (proj1 (proj2 (grouped_mapping_is_not_applied pd_groupby_unmodelled
                   check_z (ByFunction halves) (Some [VStr "a"])
                   table_ab None [] [EvGroupbyFn (Table table_ab)]
                   (Table table_ab) _ _ eq_refl eq_refl eq_refl eq_refl))).
Defined.

(** *** The key of a column check *)

Lemma positions_missing (key : string) (cols : list string) :
  key ∉ cols -> positions key cols = [].
Proof.
  intros Hout. destruct (positions key cols) as [|j js] eqn:E; [reflexivity|].
  exfalso. apply Hout. apply list_elem_of_lookup. exists j.
  apply elem_of_positions. rewrite E. left.
Qed.

(** X16. A key that names no column of the table ends the pipeline at
    the projection, whatever the backend instance: the KeyError of the
    missing column is raised before the check is read, a grouping
    computed or the predicate called, and the log is left as it was. *)
Theorem missing_column_raises_key_error
    (pd_groupby : container -> string -> outcome groupby_object)
    (self : gmap string attr) (f : frame value) (key : string)
    (log : list event) :
  key ∉ columns f ->
  __call__ pd_groupby self (Table f) (Some key) log
  = (Raise (KeyError [ReprList [VStr key]]), log).
Proof.
  intros Hout.
  assert (Hbody : preprocess_frame_key pd_groupby self f key log
                  = (Raise (KeyError [ReprList [VStr key]]), log)).
  { unfold preprocess_frame_key. rewrite bind_unfold.
    unfold lift at 1, f_getitem.
    rewrite (positions_missing key (columns f) Hout). reflexivity. }
  unfold __call__. cbn [preprocess].
  rewrite bind_unfold, (multimethod_eq _ _ _ _ _ Hbody). reflexivity.
Qed.

(** The instance of X16 at the key c on the table with columns a and b. *)
Lemma missing_column_witness :
  __call__ pd_groupby_unmodelled (__init__ check_positive) (Table table_ab)
           (Some "c") []
  = (Raise (KeyError [ReprList [VStr "c"]]), []).
Proof.
  apply (missing_column_raises_key_error pd_groupby_unmodelled
           (__init__ check_positive) table_ab "c" []).
  apply (bool_decide_unpack _). vm_compute. exact I.
Defined.

Lemma call_after_preprocess pd_groupby self obj key log c :
  preprocess pd_groupby self obj key log = (Ok (Plain c), log) ->
  preprocess pd_groupby self c None log = (Ok (Plain c), log) ->
  __call__ pd_groupby self obj key log = __call__ pd_groupby self c None log.
Proof.
  intros H1 H2. unfold __call__. rewrite !bind_unfold, H1, H2. reflexivity.
Qed.

(** X17. A column check on a table is the check on the projected column:
    for a check without grouping, when the key names columns of the
    table, the pipeline on the table with the key gives the result, and
    makes the calls, of the pipeline on the projection [df[key]] with no
    key; and a projection that is a single column has one row per row of
    the table, under the row index of the table, holding the cell of the
    row at the position of the named column. *)
Theorem column_check_is_check_on_projection
    (pd_groupby : container -> string -> outcome groupby_object)
    (check : BaseCheck) (f : frame value) (key : string) (c : container)
    (log : list event) :
  Checks.groupby check = None ->
  f_getitem f key = Ok c ->
  __call__ pd_groupby (__init__ check) (Table f) (Some key) log
    = __call__ pd_groupby (__init__ check) c None log /\
  forall s, c = Column s ->
    s_index s = f_index f /\
    exists j, columns f !! j = Some key /\
      Forall2 (fun (r : value * list value) (x : label * value) =>
                 x.1 = Single r.1 /\ r.2 !! j = Some x.2) (rows f) s.
Proof.
  intros Hg Hc. split.
  - apply call_after_preprocess.
    + cbn [preprocess]. apply multimethod_ok. unfold preprocess_frame_key.
      rewrite bind_unfold. unfold lift at 1. rewrite Hc.
      rewrite bind_unfold, self_check_init, Hg. reflexivity.
    + destruct c as [s|t]; [reflexivity|].
      cbn [preprocess]. apply multimethod_ok. unfold preprocess_frame.
      rewrite bind_unfold, self_check_init, Hg. reflexivity.
  - intros s ->. unfold f_getitem in Hc.
    destruct (positions key (columns f)) as [|j [|j' js]] eqn:Ep;
      [discriminate Hc | | discriminate Hc].
    destruct (mapM _ (rows f)) as [s'|] eqn:Em; [|discriminate Hc].
    injection Hc as ->. apply mapM_Some in Em.
    assert (Hj : columns f !! j = Some key).
    { apply elem_of_positions. rewrite Ep. left. }
    assert (HF : Forall2 (fun (r : value * list value) (x : label * value) =>
                            x.1 = Single r.1 /\ r.2 !! j = Some x.2)
                         (rows f) s).
    { eapply Forall2_impl; [exact Em|]. intros r x Hx. cbn in Hx.
      destruct (r.2 !! j) as [v|]; [|discriminate Hx].
      injection Hx as <-. split; reflexivity. }
    split; [|exists j; split; assumption].
    unfold s_index, f_index. clear -HF.
    induction HF as [|r x rs s [Hl _] _ IH]; [reflexivity|].
    cbn. rewrite Hl, IH. reflexivity.
Qed.

(** The instance of X17 at the column b of the table with columns
    a = [1, -1, 2] and b = [3, 4, -2]. *)
Lemma column_check_witness :
  __call__ pd_groupby_unmodelled (__init__ check_positive) (Table table_ab)
           (Some "b") []
  = __call__ pd_groupby_unmodelled (__init__ check_positive)
      (Column (column_of [VInt 3; VInt 4; VInt (-2)])) None [].
Proof.
  apply (column_check_is_check_on_projection pd_groupby_unmodelled
           check_positive table_ab "b"
           (Column (column_of [VInt 3; VInt 4; VInt (-2)])) []);
    reflexivity.
Defined.
